(** * Multinode penalties of bioptim: a shallow embedding and its properties

    The development follows [bioptim/limits/multinode_penalty.py] and
    [bioptim/limits/multinode_objective.py].  Python objects are records,
    mutation is explicit state passing (every method returns the objects it
    changed), exceptions are the [Raise] case of [result], and the symbolic
    layer (casadi, biorbd, the states mapping) is an interface the embedded
    functions are generic in. *)

From Stdlib Require Import ZArith Floats.SpecFloat.
From stdpp Require Import base list strings pretty gmap.
From Equations Require Import Equations.

Open Scope Z_scope.

(** ** Python exceptions and results *)

Inductive PyError :=
| NotImplementedError (msg : string)
| RuntimeError (msg : string)
| IndexError (msg : string)
| KeyError (key : string)
| AttributeError (msg : string).

Inductive result (A : Type) :=
| Ok (a : A)
| Raise (e : PyError).
Arguments Ok {A} a.
Arguments Raise {A} e.

#[global] Instance result_ret : MRet result := fun A a => Ok a.
#[global] Instance result_bind : MBind result := fun A B f m =>
  match m with
  | Ok a => f a
  | Raise e => Raise e
  end.

Definition is_ok {A} (r : result A) : bool :=
  match r with Ok _ => true | Raise _ => false end.

(** ** Python values that reach the node arguments and the weight *)

(** Modelled from the spec: the enumeration [Node] of [misc/enums.py] is not
    part of the sources.  The four markers are the ones the constructor names;
    [OtherNode] stands for every other member of the enumeration. *)
Inductive Node :=
| START
| MID
| PENULTIMATE
| END
| OtherNode (name : string).

#[global] Instance Node_eq_dec : EqDecision Node.
Proof. solve_decision. Defined.

(** What a caller can pass as [first_node] or [second_node]. *)
Inductive PyValue :=
| PyNode (n : Node)
| PyInt (z : Z)
| PyBool (b : bool)
| PyFloat (f : spec_float)
| PyStr (s : string)
| PyNone.

(** [v == m] for an enumeration member [m]: an [Enum] member is equal to
    itself only. *)
Definition py_eq_node (v : PyValue) (m : Node) : bool :=
  match v with
  | PyNode n => bool_decide (n = m)
  | _ => false
  end.

(** [v in (m1, m2, ...)] for a tuple of enumeration members. *)
Definition py_in_nodes (v : PyValue) (ms : list Node) : bool :=
  existsb (py_eq_node v) ms.

(** [isinstance(v, int)]; [bool] is a subclass of [int]. *)
Definition isinstance_int (v : PyValue) : bool :=
  match v with
  | PyInt _ | PyBool _ => true
  | _ => false
  end.

(** A Python number: the weight and the bounds are [int] or [float]. *)
Inductive PyNum :=
| NumInt (z : Z)
| NumFloat (f : spec_float).

(** [x == 0]. *)
Definition py_eq_zero (x : PyNum) : bool :=
  match x with
  | NumInt z => z =? 0
  | NumFloat (S754_zero _) => true
  | NumFloat _ => false
  end.

(** Truth value of a number, as in [if x:]. *)
Definition py_truthy (x : PyNum) : bool :=
  match x with
  | NumInt 0 => false
  | NumInt _ => true
  | NumFloat (S754_zero _) => false
  | NumFloat _ => true
  end.

(** ** Collaborators from [misc/enums.py] and [limits] *)

(** Modelled from the spec: [ConstraintType] of [misc/enums.py], the tag that
    says whether a penalty comes from the user or from bioptim (implicit or
    internal). *)
Inductive ConstraintType :=
| INTERNAL
| IMPLICIT
| USER.

Inductive InterpolationType :=
| CONSTANT.

Record Bounds := { interpolation : InterpolationType }.

(** [ObjectiveFunction.MayerFunction] is the only base the sources name. *)
Inductive FunctionBase :=
| MayerFunction
| OtherFunctionBase (name : string).

(** ** Pools *)

(** A pool slot holds the empty list [[]] or a penalty object (by identity). *)
Inductive slot :=
| SEmpty
| SPenalty (id : nat).

#[global] Instance slot_eq_dec : EqDecision slot.
Proof. solve_decision. Defined.

(** Truth value of a slot: [[]] is false, an object is true. *)
Definition slot_truthy (j : slot) : bool :=
  match j with
  | SEmpty => false
  | SPenalty _ => true
  end.

(** [for i, j in enumerate(g): if not j: return i]; [None] when the loop runs
    to its [else]. *)
Fixpoint first_free (i : Z) (g : list slot) : option Z :=
  match g with
  | [] => None
  | j :: g' => if negb (slot_truthy j) then Some i else first_free (i + 1) g'
  end.

(** [while k >= len(g): g.append([])]. *)
Equations? grow (k : Z) (g : list slot) : list slot
  by wf (Z.to_nat (k + 1 - Z.of_nat (length g))) lt :=
grow k g with decide (k >= Z.of_nat (length g)) := {
  | left _ => grow k (g ++ [SEmpty]);
  | right _ => g }.
Proof. rewrite length_app. simpl. lia. Qed.

(** [g[i] = x] on a Python list: a negative index counts from the end, an
    index out of range raises. *)
Definition py_setitem (g : list slot) (i : Z) (x : slot) : result (list slot) :=
  let n := Z.of_nat (length g) in
  if bool_decide (0 <= i < n) then Ok (<[Z.to_nat i := x]> g)
  else if bool_decide (- n <= i < 0) then Ok (<[Z.to_nat (n + i) := x]> g)
  else Raise (IndexError "list assignment index out of range").

(** ** The symbolic layer

    casadi and biorbd are outside the repository.  The embedded functions use
    them through this interface: [MX] is the type of symbolic matrices and
    [scalar] that of their entries.  The one law is casadi's: the difference of
    two matrices of the same shape is taken entry by entry. *)

Class Casadi (scalar MX : Type) := {
  (** [x.shape] *)
  mx_shape : MX → nat * nat;
  (** the entries of [x], column by column *)
  mx_entries : MX → list scalar;
  scalar_minus : scalar → scalar → scalar;
  (** [x - y] *)
  mx_minus : MX → MX → MX;
  (** [x[idx, :]] *)
  mx_getitem_rows : MX → list nat → MX;
  (** [MX.sym(name, rows, cols)] *)
  MX_sym : string → nat → nat → MX;
  (** [vertcat( *xs)] *)
  vertcat : list MX → MX;
  (** [biorbd.to_casadi_func(name, expr, *formals)( *actuals)] *)
  to_casadi_func : string → MX → list MX → list MX → MX;
  mx_minus_same_shape : ∀ x y,
    mx_shape x = mx_shape y →
    mx_shape (mx_minus x y) = mx_shape x ∧
    mx_entries (mx_minus x y) = zip_with scalar_minus (mx_entries x) (mx_entries y)
}.

(** [f"{x.shape}"], the way Python prints a pair of integers. *)
Definition show_shape (s : nat * nat) : string :=
  "(" +:+ pretty s.1 +:+ ", " +:+ pretty s.2 +:+ ")".

(** The states mapping of a penalty: [to_second] and [to_first], each with a
    [map] method ([misc/mapping.py], outside the sources). *)
Module Mapping.
Record t (MX : Type) := { map : MX → MX }.
Arguments map {MX} _ _.
End Mapping.

Module BiMapping.
Record t (MX : Type) := { to_second : Mapping.t MX; to_first : Mapping.t MX }.
Arguments to_second {MX} _.
Arguments to_first {MX} _.
End BiMapping.

(** [nlp.states[key]]: the rows it occupies and its own symbol. *)
Module OptimizationVariable.
Record t (MX : Type) := { index : list nat; mx : MX }.
Arguments index {MX} _.
Arguments mx {MX} _.
End OptimizationVariable.

(** [nlp.states]: the state at the start ([cx]) and at the end ([cx_end]) of
    the interval, and the named blocks in the order of [keys()]. *)
Module OptimizationVariableList.
Record t (MX : Type) := {
  cx : MX;
  cx_end : MX;
  elements : list (string * OptimizationVariable.t MX)
}.
Arguments cx {MX} _.
Arguments cx_end {MX} _.
Arguments elements {MX} _.

Definition keys {MX} (self : t MX) : list string := (elements self).*1.

Fixpoint lookup_key {MX} (key : string)
    (l : list (string * OptimizationVariable.t MX))
    : result (OptimizationVariable.t MX) :=
  match l with
  | [] => Raise (KeyError key)
  | (k, v) :: l' => if bool_decide (k = key) then Ok v else lookup_key key l'
  end.

(** [self[key]] *)
Definition getitem {MX} (self : t MX) (key : string)
    : result (OptimizationVariable.t MX) :=
  lookup_key key (elements self).
End OptimizationVariableList.

(** [nlp.model]: the two capabilities the strategies use, each followed by
    [.to_mx()]. *)
Module BiorbdModel.
Record t (MX : Type) := { CoM : MX → MX; CoMdot : MX → MX → MX }.
Arguments CoM {MX} _ _.
Arguments CoMdot {MX} _ _ _.
End BiorbdModel.

(** A phase of the problem, with its two pools. *)
Module NLP.
Record t (MX : Type) := {
  g_internal : list slot;
  J_internal : list slot;
  states : OptimizationVariableList.t MX;
  model : BiorbdModel.t MX
}.
Arguments g_internal {MX} _.
Arguments J_internal {MX} _.
Arguments states {MX} _.
Arguments model {MX} _.

Definition set_g_internal {MX} (g : list slot) (self : t MX) : t MX :=
  {| g_internal := g; J_internal := J_internal self;
     states := states self; model := model self |}.
Definition set_J_internal {MX} (g : list slot) (self : t MX) : t MX :=
  {| g_internal := g_internal self; J_internal := g;
     states := states self; model := model self |}.
End NLP.

(** The whole problem, with its own two pools. *)
Module OCP.
Record t := {
  n_phases : Z;
  g_internal : list slot;
  J_internal : list slot
}.

Definition set_g_internal (g : list slot) (self : t) : t :=
  {| n_phases := n_phases self; g_internal := g; J_internal := J_internal self |}.
Definition set_J_internal (g : list slot) (self : t) : t :=
  {| n_phases := n_phases self; g_internal := g_internal self; J_internal := g |}.
End OCP.

(** An element of [all_pn]: the problem and the phase (or [None]) a penalty is
    evaluated in. *)
Module PenaltyNodeList.
Record t (MX : Type) := { ocp : OCP.t; nlp : option (NLP.t MX) }.
Arguments ocp {MX} _.
Arguments nlp {MX} _.
End PenaltyNodeList.

(** Which of the two pools a method works on. *)
Inductive pool_name :=
| g_internal
| J_internal.

(** [nlp.X if nlp else ocp.X] *)
Definition pool_of {MX} (X : pool_name) (ocp : OCP.t) (nlp : option (NLP.t MX))
    : list slot :=
  match nlp, X with
  | Some n, g_internal => NLP.g_internal n
  | Some n, J_internal => NLP.J_internal n
  | None, g_internal => OCP.g_internal ocp
  | None, J_internal => OCP.J_internal ocp
  end.

(** The same list object after it was mutated in place to [g]. *)
Definition store_pool {MX} (X : pool_name) (g : list slot)
    (ocp : OCP.t) (nlp : option (NLP.t MX)) : OCP.t * option (NLP.t MX) :=
  match nlp, X with
  | Some n, g_internal => (ocp, Some (NLP.set_g_internal g n))
  | Some n, J_internal => (ocp, Some (NLP.set_J_internal g n))
  | None, g_internal => (OCP.set_g_internal g ocp, None)
  | None, J_internal => (OCP.set_J_internal g ocp, None)
  end.


(** ** [class MultinodePenalty(PenaltyOption)] *)

Module MultinodePenalty.

(** The attributes of a penalty object.  [obj_id] is the identity of the
    object (what a pool slot refers to); [list_index], [base] and
    [states_mapping] are inherited attributes the methods below read or
    write; the others are assigned by [__init__]. *)
Record t (MX : Type) := {
  obj_id : nat;
  list_index : Z;
  base : option FunctionBase;
  states_mapping : BiMapping.t MX;
  min_bound : PyNum;
  max_bound : PyNum;
  bounds : Bounds;
  multinode_penalty : bool;
  weight : PyNum;
  quadratic : bool;
  phase_first_idx : Z;
  phase_second_idx : Z;
  phase_pre_idx : Z;
  phase_post_idx : Z;
  first_node : PyValue;
  second_node : PyValue;
  node : PyValue * PyValue;
  dt : Z;
  node_idx : list Z;
  constraint_type : ConstraintType
}.
Arguments obj_id {MX} _.
Arguments list_index {MX} _.
Arguments base {MX} _.
Arguments states_mapping {MX} _.
Arguments min_bound {MX} _.
Arguments max_bound {MX} _.
Arguments bounds {MX} _.
Arguments multinode_penalty {MX} _.
Arguments weight {MX} _.
Arguments quadratic {MX} _.
Arguments phase_first_idx {MX} _.
Arguments phase_second_idx {MX} _.
Arguments phase_pre_idx {MX} _.
Arguments phase_post_idx {MX} _.
Arguments first_node {MX} _.
Arguments second_node {MX} _.
Arguments node {MX} _.
Arguments dt {MX} _.
Arguments node_idx {MX} _.
Arguments constraint_type {MX} _.

(** [self.list_index = i] *)
Definition set_list_index {MX} (i : Z) (self : t MX) : t MX :=
  {| obj_id := obj_id self; list_index := i; base := base self;
     states_mapping := states_mapping self;
     min_bound := min_bound self; max_bound := max_bound self;
     bounds := bounds self; multinode_penalty := multinode_penalty self;
     weight := weight self; quadratic := quadratic self;
     phase_first_idx := phase_first_idx self;
     phase_second_idx := phase_second_idx self;
     phase_pre_idx := phase_pre_idx self;
     phase_post_idx := phase_post_idx self;
     first_node := first_node self; second_node := second_node self;
     node := node self; dt := dt self; node_idx := node_idx self;
     constraint_type := constraint_type self |}.

(** [self.base = b] *)
Definition set_base {MX} (b : FunctionBase) (self : t MX) : t MX :=
  {| obj_id := obj_id self; list_index := list_index self; base := Some b;
     states_mapping := states_mapping self;
     min_bound := min_bound self; max_bound := max_bound self;
     bounds := bounds self; multinode_penalty := multinode_penalty self;
     weight := weight self; quadratic := quadratic self;
     phase_first_idx := phase_first_idx self;
     phase_second_idx := phase_second_idx self;
     phase_pre_idx := phase_pre_idx self;
     phase_post_idx := phase_post_idx self;
     first_node := first_node self; second_node := second_node self;
     node := node self; dt := dt self; node_idx := node_idx self;
     constraint_type := constraint_type self |}.

Definition node_error : PyError :=
  NotImplementedError
    "Multi Node Penalty only works with Node.START, Node.MID, Node.PENULTIMATE, Node.END or a int.".

(** [__init__], from the node checks on.  [self] is the object as the
    initialiser of the base class left it (the call of [super().__init__],
    whose class is outside the sources): it carries the identity, the
    [list_index] and whatever else the base class stored. *)
Definition __init__ {MX} (self : t MX)
    (phase_first_idx phase_second_idx : Z)
    (first_node second_node : PyValue)
    (min_bound max_bound weight : PyNum) : result (t MX) :=
  _ ← (if negb (py_in_nodes first_node [START; MID; PENULTIMATE; END]) then
         if negb (isinstance_int first_node) then Raise node_error else Ok ()
       else Ok ());
  _ ← (if negb (py_in_nodes second_node [START; MID; PENULTIMATE; END]) then
         if negb (isinstance_int second_node) then Raise node_error else Ok ()
       else Ok ());
  Ok {| obj_id := obj_id self;
        list_index := list_index self;
        base := base self;
        states_mapping := states_mapping self;
        min_bound := min_bound;
        max_bound := max_bound;
        bounds := {| interpolation := CONSTANT |};
        multinode_penalty := true;
        weight := weight;
        quadratic := true;
        phase_first_idx := phase_first_idx;
        phase_second_idx := phase_second_idx;
        phase_pre_idx := phase_first_idx;
        phase_post_idx := phase_second_idx;
        first_node := first_node;
        second_node := second_node;
        node := (first_node, second_node);
        dt := 1;
        node_idx := [0];
        constraint_type := INTERNAL |}.

(** [_add_penalty_to_pool]: returns [all_pn] with the pool of its first
    element updated. *)
Definition _add_penalty_to_pool {MX} (self : t MX)
    (all_pn : list (PenaltyNodeList.t MX)) : result (list (PenaltyNodeList.t MX)) :=
  match all_pn !! 0%nat with
  | None => Raise (IndexError "list index out of range")
  | Some pn0 =>
      let ocp := PenaltyNodeList.ocp pn0 in
      let nlp := PenaltyNodeList.nlp pn0 in
      let X := if py_eq_zero (weight self) then g_internal else J_internal in
      pool ← py_setitem (pool_of X ocp nlp) (list_index self) (SPenalty (obj_id self));
      let '(ocp, nlp) := store_pool X pool ocp nlp in
      Ok (<[0%nat := {| PenaltyNodeList.ocp := ocp; PenaltyNodeList.nlp := nlp |}]> all_pn)
  end.

(** [clear_penalty]: returns the penalty, the problem and the phase after the
    call. *)
Definition clear_penalty {MX} (self : t MX) (ocp : OCP.t) (nlp : option (NLP.t MX))
    : t MX * (OCP.t * option (NLP.t MX)) :=
  let X := if py_eq_zero (weight self) then g_internal else J_internal in
  let g_to_add_to := pool_of X ocp nlp in
  if list_index self <? 0 then
    match first_free 0 g_to_add_to with
    | Some i => (set_list_index i self, (ocp, nlp))
    | None =>
        let g_to_add_to := g_to_add_to ++ [SEmpty] in
        (set_list_index (Z.of_nat (length g_to_add_to) - 1) self,
         store_pool X g_to_add_to ocp nlp)
    end
  else
    let g_to_add_to := grow (list_index self) g_to_add_to in
    (self, store_pool X (<[Z.to_nat (list_index self) := SEmpty]> g_to_add_to) ocp nlp).

End MultinodePenalty.

(** ** [class MultinodeObjective(Objective, MultinodePenalty)] *)

Module MultinodeObjective.

(** [__init__]: after the initialiser of [Objective] (outside the sources,
    it left [self]), the one of [MultinodePenalty] is called with the two
    phases and the two nodes only, so that the bounds and the weight take its
    defaults. *)
Definition __init__ {MX} (self : MultinodePenalty.t MX)
    (phase_first_idx phase_second_idx : Z)
    (first_node second_node : PyValue)
    (weight : PyNum) : result (MultinodePenalty.t MX) :=
  MultinodePenalty.__init__ self phase_first_idx phase_second_idx
    first_node second_node (NumInt 0) (NumInt 0) (NumInt 0).

Definition _add_penalty_to_pool {MX} (self : MultinodePenalty.t MX)
    (all_pn : list (PenaltyNodeList.t MX)) : result (list (PenaltyNodeList.t MX)) :=
  match all_pn !! 0%nat with
  | None => Raise (IndexError "list index out of range")
  | Some pn0 =>
      let ocp := PenaltyNodeList.ocp pn0 in
      let nlp := PenaltyNodeList.nlp pn0 in
      pool ← py_setitem (pool_of J_internal ocp nlp)
                (MultinodePenalty.list_index self)
                (SPenalty (MultinodePenalty.obj_id self));
      let '(ocp, nlp) := store_pool J_internal pool ocp nlp in
      Ok (<[0%nat := {| PenaltyNodeList.ocp := ocp; PenaltyNodeList.nlp := nlp |}]> all_pn)
  end.

Definition clear_penalty {MX} (self : MultinodePenalty.t MX)
    (ocp : OCP.t) (nlp : option (NLP.t MX))
    : MultinodePenalty.t MX * (OCP.t * option (NLP.t MX)) :=
  let g_to_add_to := pool_of J_internal ocp nlp in
  if MultinodePenalty.list_index self <? 0 then
    match first_free 0 g_to_add_to with
    | Some i => (MultinodePenalty.set_list_index i self, (ocp, nlp))
    | None =>
        let g_to_add_to := g_to_add_to ++ [SEmpty] in
        (MultinodePenalty.set_list_index (Z.of_nat (length g_to_add_to) - 1) self,
         store_pool J_internal g_to_add_to ocp nlp)
    end
  else
    let g_to_add_to := grow (MultinodePenalty.list_index self) g_to_add_to in
    (self,
     store_pool J_internal
       (<[Z.to_nat (MultinodePenalty.list_index self) := SEmpty]> g_to_add_to) ocp nlp).

End MultinodeObjective.

(** ** [class MultinodePenaltyList(UniquePerPhaseOptionList)] *)

Module MultinodePenaltyList.

(** The list object: its entries, in the order iteration yields them. *)
Definition t (MX : Type) : Type := list (MultinodePenalty.t MX).

(** Modelled from the spec: [UniquePerPhaseOptionList._add] of
    [misc/options.py] is not part of the sources.  Each call creates one new
    entry with the constructor [option_type] and stores it after the entries
    already there; [new] is the object the constructor initialises. *)
Definition _add {MX}
    (option_type : MultinodePenalty.t MX → result (MultinodePenalty.t MX))
    (new : MultinodePenalty.t MX) (self : t MX) : result (t MX) :=
  entry ← option_type new;
  Ok (self ++ [entry]).

(** [add]: the extra arguments are those of the constructor. *)
Definition add {MX} (self : t MX) (new : MultinodePenalty.t MX)
    (phase_first_idx phase_second_idx : Z)
    (first_node second_node : PyValue)
    (min_bound max_bound weight : PyNum) : result (t MX) :=
  _add (λ o, MultinodePenalty.__init__ o phase_first_idx phase_second_idx
               first_node second_node min_bound max_bound weight)
       new self.

(** The body of [for mnc in self] in [prepare_multinode_penalties].  [visited]
    are the entries already gone through (as the loop left them), [todo] the
    ones still to come; the result pairs the entries of the list after the
    call with its outcome. *)
Fixpoint prepare_loop {MX} (ocp : OCP.t)
    (visited todo : list (MultinodePenalty.t MX))
    (full_phase_multinode_penalty : list (MultinodePenalty.t MX))
    (existing_phases : list Z)
    : t MX * result (list (MultinodePenalty.t MX)) :=
  match todo with
  | [] => (visited, Ok full_phase_multinode_penalty)
  | mnc :: todo' =>
      let idx_phase := MultinodePenalty.phase_first_idx mnc in
      if (MultinodePenalty.phase_first_idx mnc >=? OCP.n_phases ocp)
         || (MultinodePenalty.phase_second_idx mnc >=? OCP.n_phases ocp)
      then (visited ++ todo,
            Raise (RuntimeError
              "Phase index of the multinode_penalty is higher than the number of phases"))
      else if (MultinodePenalty.phase_first_idx mnc <? 0)
              || (MultinodePenalty.phase_second_idx mnc <? 0)
      then (visited ++ todo,
            Raise (RuntimeError
              "Phase index of the multinode_penalty need to be positive"))
      else
        let existing_phases := existing_phases ++ [idx_phase] in
        let mnc :=
          if py_truthy (MultinodePenalty.weight mnc)
          then MultinodePenalty.set_base MayerFunction mnc
          else mnc in
        prepare_loop ocp (visited ++ [mnc]) todo'
          (full_phase_multinode_penalty ++ [mnc]) existing_phases
  end.

Definition prepare_multinode_penalties {MX} (self : t MX) (ocp : OCP.t)
    : t MX * result (list (MultinodePenalty.t MX)) :=
  prepare_loop ocp [] self [] [].

End MultinodePenaltyList.

(** ** [class MultinodeObjectiveList(MultinodePenaltyList)] *)

Module MultinodeObjectiveList.

Definition add {MX} (self : MultinodePenaltyList.t MX) (new : MultinodePenalty.t MX)
    (phase_first_idx phase_second_idx : Z)
    (first_node second_node : PyValue)
    (weight : PyNum) : result (MultinodePenaltyList.t MX) :=
  MultinodePenaltyList._add
    (λ o, MultinodeObjective.__init__ o phase_first_idx phase_second_idx
            first_node second_node weight)
    new self.

End MultinodeObjectiveList.

(** ** [class MultinodePenaltyFunctions.Functions] *)

Module MultinodePenaltyFunctions.
Section Functions.
Context {scalar MX : Type} `{!Casadi scalar MX}.

(** [all_pn[i].nlp] *)
Definition nlp_at (all_pn : list (PenaltyNodeList.t MX)) (i : nat)
    : result (option (NLP.t MX)) :=
  match all_pn !! i with
  | Some pn => Ok (PenaltyNodeList.nlp pn)
  | None => Raise (IndexError "list index out of range")
  end.

(** [nlp.states] (and likewise [nlp.model]): [None] has no attributes. *)
Definition deref (nlp : option (NLP.t MX)) : result (NLP.t MX) :=
  match nlp with
  | Some n => Ok n
  | None => Raise (AttributeError "'NoneType' object has no attribute 'states'")
  end.

(** [xs[i]] on a Python list, [i] not negative. *)
Definition list_getitem (xs : list MX) (i : nat) : result MX :=
  match xs !! i with
  | Some x => Ok x
  | None => Raise (IndexError "list index out of range")
  end.

Definition mismatch_message (pre post : nat * nat) : string :=
  ("Continuity can't be established since the number of x to be matched is "
   +:+ show_shape pre +:+ " in the "
   +:+ "pre-transition phase and " +:+ show_shape post
   +:+ " post-transition phase. Please use a custom "
   +:+ "transition or supply states_mapping").

(** [[MX.sym(f"{key}", *nlp.states[key].mx.shape) for key in nlp.states.keys()]] *)
Definition states_sym_list (states : OptimizationVariableList.t MX)
    : result (list MX) :=
  mapM (λ key,
          v ← OptimizationVariableList.getitem states key;
          let shape := mx_shape (OptimizationVariable.mx v) in
          Ok (MX_sym key shape.1 shape.2))
       (OptimizationVariableList.keys states).

Definition equality (multinode_penalty : MultinodePenalty.t MX)
    (all_pn : list (PenaltyNodeList.t MX)) : result MX :=
  nlp_pre ← nlp_at all_pn 0;
  nlp_post ← nlp_at all_pn 1;
  nlp_pre ← deref nlp_pre;
  let states_pre :=
    Mapping.map (BiMapping.to_second (MultinodePenalty.states_mapping multinode_penalty))
      (OptimizationVariableList.cx_end (NLP.states nlp_pre)) in
  nlp_post ← deref nlp_post;
  let states_post :=
    Mapping.map (BiMapping.to_first (MultinodePenalty.states_mapping multinode_penalty))
      (OptimizationVariableList.cx (NLP.states nlp_post)) in
  if bool_decide (mx_shape states_pre ≠ mx_shape states_post) then
    Raise (RuntimeError (mismatch_message (mx_shape states_pre) (mx_shape states_post)))
  else
    Ok (mx_minus states_pre states_post).

Definition com_equality (multinode_penalty : MultinodePenalty.t MX)
    (all_pn : list (PenaltyNodeList.t MX)) : result MX :=
  nlp_pre ← nlp_at all_pn 0;
  nlp_post ← nlp_at all_pn 1;
  nlp_pre ← deref nlp_pre;
  let states_pre :=
    Mapping.map (BiMapping.to_second (MultinodePenalty.states_mapping multinode_penalty))
      (OptimizationVariableList.cx_end (NLP.states nlp_pre)) in
  nlp_post ← deref nlp_post;
  let states_post :=
    Mapping.map (BiMapping.to_first (MultinodePenalty.states_mapping multinode_penalty))
      (OptimizationVariableList.cx (NLP.states nlp_post)) in
  states_post_sym_list ← states_sym_list (NLP.states nlp_post);
  let states_post_sym := vertcat states_post_sym_list in
  if bool_decide (mx_shape states_pre ≠ mx_shape states_post) then
    Raise (RuntimeError (mismatch_message (mx_shape states_pre) (mx_shape states_post)))
  else
    q ← OptimizationVariableList.getitem (NLP.states nlp_pre) "q";
    let pre_com :=
      BiorbdModel.CoM (NLP.model nlp_pre)
        (mx_getitem_rows states_pre (OptimizationVariable.index q)) in
    sym0 ← list_getitem states_post_sym_list 0;
    let post_com := BiorbdModel.CoM (NLP.model nlp_post) sym0 in
    let pre_states_cx := OptimizationVariableList.cx (NLP.states nlp_pre) in
    let post_states_cx := OptimizationVariableList.cx (NLP.states nlp_post) in
    Ok (to_casadi_func "com_equality" (mx_minus pre_com post_com)
          [states_pre; states_post_sym] [pre_states_cx; post_states_cx]).

Definition com_velocity_equality (multinode_penalty : MultinodePenalty.t MX)
    (all_pn : list (PenaltyNodeList.t MX)) : result MX :=
  nlp_pre ← nlp_at all_pn 0;
  nlp_post ← nlp_at all_pn 1;
  nlp_pre ← deref nlp_pre;
  let states_pre :=
    Mapping.map (BiMapping.to_second (MultinodePenalty.states_mapping multinode_penalty))
      (OptimizationVariableList.cx_end (NLP.states nlp_pre)) in
  nlp_post ← deref nlp_post;
  let states_post :=
    Mapping.map (BiMapping.to_first (MultinodePenalty.states_mapping multinode_penalty))
      (OptimizationVariableList.cx (NLP.states nlp_post)) in
  states_post_sym_list ← states_sym_list (NLP.states nlp_post);
  let states_post_sym := vertcat states_post_sym_list in
  if bool_decide (mx_shape states_pre ≠ mx_shape states_post) then
    Raise (RuntimeError (mismatch_message (mx_shape states_pre) (mx_shape states_post)))
  else
    q ← OptimizationVariableList.getitem (NLP.states nlp_pre) "q";
    qdot ← OptimizationVariableList.getitem (NLP.states nlp_pre) "qdot";
    let pre_com_dot :=
      BiorbdModel.CoMdot (NLP.model nlp_pre)
        (mx_getitem_rows states_pre (OptimizationVariable.index q))
        (mx_getitem_rows states_pre (OptimizationVariable.index qdot)) in
    sym0 ← list_getitem states_post_sym_list 0;
    sym1 ← list_getitem states_post_sym_list 1;
    let post_com_dot := BiorbdModel.CoMdot (NLP.model nlp_post) sym0 sym1 in
    let pre_states_cx := OptimizationVariableList.cx_end (NLP.states nlp_pre) in
    let post_states_cx := OptimizationVariableList.cx (NLP.states nlp_post) in
    Ok (to_casadi_func "com_dot_equality" (mx_minus pre_com_dot post_com_dot)
          [states_pre; states_post_sym] [pre_states_cx; post_states_cx]).

End Functions.
End MultinodePenaltyFunctions.

(** ** The arguments of the base initialiser and of the list

    [class MultinodePenaltyFcn(Enum)], and what [__init__] and
    [MultinodePenaltyList.add] do with the strategy argument before they hand
    it on. *)

Inductive MultinodePenaltyFcn :=
| EQUALITY
| CUSTOM
| COM_EQUALITY
| COM_VELOCITY_EQUALITY.

(** What a caller can pass as [multinode_penalty], as [custom_function] or as
    a keyword argument: a member of the enumeration, a function (by name) or
    any other value. *)
Inductive PyObject :=
| ObjFcn (f : MultinodePenaltyFcn)
| ObjCallable (name : string)
| ObjValue (v : PyValue).

(** [isinstance(x, MultinodePenaltyFcn)] *)
Definition isinstance_fcn (x : PyObject) : bool :=
  match x with
  | ObjFcn _ => true
  | _ => false
  end.

(** The first lines of [MultinodePenalty.__init__]: the values of [penalty],
    [custom_function] and [**params] in the call of [super().__init__]. *)
Definition super_arguments (multinode_penalty custom_function : PyObject)
    (params : gmap string PyObject) : PyObject * PyObject * gmap string PyObject :=
  let force_multinode := false in
  let '(force_multinode, params) :=
    if bool_decide (is_Some (params !! "force_multinode"))
    then (true, delete "force_multinode" params)
    else (force_multinode, params) in
  if negb (isinstance_fcn multinode_penalty) && negb force_multinode
  then (ObjFcn CUSTOM, multinode_penalty, params)
  else (multinode_penalty, custom_function, params).

(** The first lines of [MultinodePenaltyList.add]: the values of
    [multinode_penalty] and [**extra_arguments] in the call of [_add]. *)
Definition add_arguments (multinode_penalty : PyObject)
    (extra_arguments : gmap string PyObject) : PyObject * gmap string PyObject :=
  if negb (isinstance_fcn multinode_penalty)
  then (ObjFcn CUSTOM, <["custom_function" := multinode_penalty]> extra_arguments)
  else (multinode_penalty, extra_arguments).

(** [MultinodePenaltyFunctions.Functions.custom]; [custom_function] is the
    attribute of that name of the penalty, a function of the penalty, the two
    phases and the extra parameters. *)
Definition custom {MX A : Type}
    (custom_function : MultinodePenalty.t MX → option (NLP.t MX) →
                       option (NLP.t MX) → A → result MX)
    (multinode_penalty : MultinodePenalty.t MX)
    (all_pn : list (PenaltyNodeList.t MX)) (extra_params : A) : result MX :=
  nlp_pre ← MultinodePenaltyFunctions.nlp_at all_pn 0;
  nlp_post ← MultinodePenaltyFunctions.nlp_at all_pn 1;
  custom_function multinode_penalty nlp_pre nlp_post extra_params.

(** ** A concrete symbolic layer

    Dense matrices of first-order terms: an instance of the interface on
    which the strategies can be run. *)

#[warnings="-register-all"]
Inductive term :=
| TSym (name : string) (k : nat)
| TNum (z : Z)
| TMinus (a b : term)
| TApp (f : string) (k : nat) (args : list term).

Record dense := { d_shape : nat * nat; d_entries : list term }.

Definition d_minus (x y : dense) : dense :=
  {| d_shape := d_shape x;
     d_entries := zip_with TMinus (d_entries x) (d_entries y) |}.

Definition d_getitem_rows (x : dense) (idx : list nat) : dense :=
  {| d_shape := (length idx, (d_shape x).2);
     d_entries :=
       c ← seq 0 (d_shape x).2;
       omap (λ i, d_entries x !! (c * (d_shape x).1 + i)%nat) idx |}.

Definition d_sym (name : string) (rows cols : nat) : dense :=
  {| d_shape := (rows, cols);
     d_entries := TSym name <$> seq 0 (rows * cols) |}.

Definition d_vertcat (xs : list dense) : dense :=
  {| d_shape := (sum_list ((λ x, (d_shape x).1) <$> xs), 1%nat);
     d_entries := xs ≫= d_entries |}.

Definition d_call (name : string) (expr : dense) (formals actuals : list dense)
    : dense :=
  {| d_shape := d_shape expr;
     d_entries :=
       (λ k, TApp name k (actuals ≫= d_entries))
         <$> seq 0 (length (d_entries expr)) |}.

#[global] Instance dense_casadi : Casadi term dense := {|
  mx_shape := d_shape;
  mx_entries := d_entries;
  scalar_minus := TMinus;
  mx_minus := d_minus;
  mx_getitem_rows := d_getitem_rows;
  MX_sym := d_sym;
  vertcat := d_vertcat;
  to_casadi_func := d_call;
  mx_minus_same_shape := λ x y _, conj eq_refl eq_refl
|}.

(** A numeric column vector. *)
Definition d_column (zs : list Z) : dense :=
  {| d_shape := (length zs, 1%nat); d_entries := TNum <$> zs |}.

Definition identity_mapping : BiMapping.t dense :=
  {| BiMapping.to_second := {| Mapping.map := id |};
     BiMapping.to_first := {| Mapping.map := id |} |}.

(** A model whose centre of mass and centre-of-mass velocity are the
    uninterpreted functions [CoM] and [CoMdot] of the entries they are given. *)
Definition sample_model : BiorbdModel.t dense :=
  {| BiorbdModel.CoM := λ q,
       {| d_shape := (3%nat, 1%nat);
          d_entries := (λ k, TApp "CoM" k (d_entries q)) <$> seq 0 3 |};
     BiorbdModel.CoMdot := λ q qdot,
       {| d_shape := (3%nat, 1%nat);
          d_entries := (λ k, TApp "CoMdot" k (d_entries q ++ d_entries qdot)) <$> seq 0 3 |} |}.

(** A phase with one position and one velocity, whose state is [x] at the start
    of the interval and [x_end] at its end. *)
Definition sample_nlp (x x_end : dense) : NLP.t dense :=
  {| NLP.g_internal := [];
     NLP.J_internal := [];
     NLP.states :=
       {| OptimizationVariableList.cx := x;
          OptimizationVariableList.cx_end := x_end;
          OptimizationVariableList.elements :=
            [("q", {| OptimizationVariable.index := [0%nat];
                      OptimizationVariable.mx := d_sym "q" 1 1 |});
             ("qdot", {| OptimizationVariable.index := [1%nat];
                         OptimizationVariable.mx := d_sym "qdot" 1 1 |})] |};
     NLP.model := sample_model |}.

Definition sample_ocp : OCP.t :=
  {| OCP.n_phases := 2; OCP.g_internal := []; OCP.J_internal := [] |}.

(** A penalty object before its initialiser ran. *)
Definition sample_penalty (id : nat) : MultinodePenalty.t dense :=
  {| MultinodePenalty.obj_id := id;
     MultinodePenalty.list_index := -1;
     MultinodePenalty.base := None;
     MultinodePenalty.states_mapping := identity_mapping;
     MultinodePenalty.min_bound := NumInt 0;
     MultinodePenalty.max_bound := NumInt 0;
     MultinodePenalty.bounds := {| interpolation := CONSTANT |};
     MultinodePenalty.multinode_penalty := false;
     MultinodePenalty.weight := NumInt 0;
     MultinodePenalty.quadratic := false;
     MultinodePenalty.phase_first_idx := 0;
     MultinodePenalty.phase_second_idx := 0;
     MultinodePenalty.phase_pre_idx := 0;
     MultinodePenalty.phase_post_idx := 0;
     MultinodePenalty.first_node := PyNone;
     MultinodePenalty.second_node := PyNone;
     MultinodePenalty.node := (PyNone, PyNone);
     MultinodePenalty.dt := 0;
     MultinodePenalty.node_idx := [];
     MultinodePenalty.constraint_type := USER |}.

(** The same object with the given weight and pool index. *)
Definition sample_entry (id : nat) (w : PyNum) (k : Z) : MultinodePenalty.t dense :=
  {| MultinodePenalty.obj_id := id;
     MultinodePenalty.list_index := k;
     MultinodePenalty.base := None;
     MultinodePenalty.states_mapping := identity_mapping;
     MultinodePenalty.min_bound := NumInt 0;
     MultinodePenalty.max_bound := NumInt 0;
     MultinodePenalty.bounds := {| interpolation := CONSTANT |};
     MultinodePenalty.multinode_penalty := true;
     MultinodePenalty.weight := w;
     MultinodePenalty.quadratic := true;
     MultinodePenalty.phase_first_idx := 0;
     MultinodePenalty.phase_second_idx := 1;
     MultinodePenalty.phase_pre_idx := 0;
     MultinodePenalty.phase_post_idx := 1;
     MultinodePenalty.first_node := PyNode END;
     MultinodePenalty.second_node := PyNode START;
     MultinodePenalty.node := (PyNode END, PyNode START);
     MultinodePenalty.dt := 1;
     MultinodePenalty.node_idx := [0];
     MultinodePenalty.constraint_type := INTERNAL |}.

Definition sample_pn (nlp : NLP.t dense) : PenaltyNodeList.t dense :=
  {| PenaltyNodeList.ocp := sample_ocp; PenaltyNodeList.nlp := Some nlp |}.

(** ** The reservation algorithm, as the specification words it

    With a negative index: claim the first empty slot, or append one and claim
    it.  With an index [k >= 0]: append empty slots until the pool has at
    least [k + 1] entries, then empty slot [k].  The result is the claimed
    index and the pool. *)
Definition reserve_slot (k : Z) (g : list slot) : Z * list slot :=
  if bool_decide (k < 0) then
    match first_free 0 g with
    | Some i => (i, g)
    | None => (Z.of_nat (length g), g ++ [SEmpty])
    end
  else
    (k, <[Z.to_nat k := SEmpty]> (g ++ replicate (Z.to_nat k + 1 - length g)%nat SEmpty)).

(** The pool the method does not select. *)
Definition other_pool (X : pool_name) : pool_name :=
  match X with
  | g_internal => J_internal
  | J_internal => g_internal
  end.

(** The pool a [MultinodePenalty] selects from its weight. *)
Definition routed_pool {MX} (self : MultinodePenalty.t MX) : pool_name :=
  if py_eq_zero (MultinodePenalty.weight self) then g_internal else J_internal.

(** A reservation method [clear] works on pool [X]: it claims the index and
    leaves the pool as [reserve_slot] says, and changes nothing else, neither
    the other pool nor the object that does not own the pool. *)
Definition reserves_in {MX}
    (clear : MultinodePenalty.t MX → OCP.t → option (NLP.t MX) →
             MultinodePenalty.t MX * (OCP.t * option (NLP.t MX)))
    (X : pool_name) (self : MultinodePenalty.t MX)
    (ocp : OCP.t) (nlp : option (NLP.t MX)) : Prop :=
  let after := clear self ocp nlp in
  let r := reserve_slot (MultinodePenalty.list_index self) (pool_of X ocp nlp) in
  after.1 = MultinodePenalty.set_list_index r.1 self ∧
  pool_of X after.2.1 after.2.2 = r.2 ∧
  pool_of (other_pool X) after.2.1 after.2.2 = pool_of (other_pool X) ocp nlp ∧
  (is_Some nlp → after.2.1 = ocp) ∧
  (nlp = None → after.2.2 = None).

(** An installation method [install] works on pool [X] of the first element
    of [all_pn]: it fails as the assignment [pool[list_index] = self] fails,
    and otherwise leaves that pool as the assignment does and the other pool
    and the other elements as they were. *)
Definition installs_in {MX}
    (install : MultinodePenalty.t MX → list (PenaltyNodeList.t MX) →
               result (list (PenaltyNodeList.t MX)))
    (X : pool_name) (self : MultinodePenalty.t MX)
    (all_pn : list (PenaltyNodeList.t MX)) : Prop :=
  match all_pn with
  | [] => ∃ e, install self all_pn = Raise e
  | pn0 :: rest =>
      let pool0 X := pool_of X (PenaltyNodeList.ocp pn0) (PenaltyNodeList.nlp pn0) in
      match py_setitem (pool0 X) (MultinodePenalty.list_index self)
              (SPenalty (MultinodePenalty.obj_id self)) with
      | Raise e => install self all_pn = Raise e
      | Ok pool =>
          ∃ pn0', install self all_pn = Ok (pn0' :: rest) ∧
            pool_of X (PenaltyNodeList.ocp pn0') (PenaltyNodeList.nlp pn0') = pool ∧
            pool_of (other_pool X) (PenaltyNodeList.ocp pn0') (PenaltyNodeList.nlp pn0')
            = pool0 (other_pool X)
      end
  end.

(** The pool [X] an element of [all_pn] gives access to. *)
Definition pn_pool {MX} (X : pool_name) (pn : PenaltyNodeList.t MX) : list slot :=
  pool_of X (PenaltyNodeList.ocp pn) (PenaltyNodeList.nlp pn).

(** The element of [all_pn] for a problem and a phase. *)
Definition as_pn {MX} (s : OCP.t * option (NLP.t MX)) : PenaltyNodeList.t MX :=
  {| PenaltyNodeList.ocp := s.1; PenaltyNodeList.nlp := s.2 |}.

(** ** Phase indices, as the specification words them *)

(** Both phase indices of an entry are in [0, n_phases). *)
Definition valid_phases {MX} (n_phases : Z) (mnc : MultinodePenalty.t MX) : Prop :=
  0 <= MultinodePenalty.phase_first_idx mnc < n_phases ∧
  0 <= MultinodePenalty.phase_second_idx mnc < n_phases.

#[global] Instance valid_phases_dec {MX} n (mnc : MultinodePenalty.t MX) :
  Decision (valid_phases n mnc).
Proof. unfold valid_phases. apply _. Defined.

(** An entry after a successful pass: one with a weight is tagged with the
    Mayer evaluation path, and nothing else changes. *)
Definition tagged {MX} (mnc : MultinodePenalty.t MX) : MultinodePenalty.t MX :=
  if py_truthy (MultinodePenalty.weight mnc)
  then MultinodePenalty.set_base MayerFunction mnc
  else mnc.

(** The error an entry with an invalid phase index stops the pass with. *)
Definition phase_error {MX} (n_phases : Z) (mnc : MultinodePenalty.t MX) : PyError :=
  if bool_decide (n_phases <= MultinodePenalty.phase_first_idx mnc ∨
                  n_phases <= MultinodePenalty.phase_second_idx mnc)
  then RuntimeError
         "Phase index of the multinode_penalty is higher than the number of phases"
  else RuntimeError "Phase index of the multinode_penalty need to be positive".

(** ** Node arguments *)

(** What the constructor returns when it returns. *)
Definition initialised {MX} (self : MultinodePenalty.t MX) (pf ps : Z)
    (fn sn : PyValue) (lo hi w : PyNum) : MultinodePenalty.t MX :=
  {| MultinodePenalty.obj_id := MultinodePenalty.obj_id self;
     MultinodePenalty.list_index := MultinodePenalty.list_index self;
     MultinodePenalty.base := MultinodePenalty.base self;
     MultinodePenalty.states_mapping := MultinodePenalty.states_mapping self;
     MultinodePenalty.min_bound := lo;
     MultinodePenalty.max_bound := hi;
     MultinodePenalty.bounds := {| interpolation := CONSTANT |};
     MultinodePenalty.multinode_penalty := true;
     MultinodePenalty.weight := w;
     MultinodePenalty.quadratic := true;
     MultinodePenalty.phase_first_idx := pf;
     MultinodePenalty.phase_second_idx := ps;
     MultinodePenalty.phase_pre_idx := pf;
     MultinodePenalty.phase_post_idx := ps;
     MultinodePenalty.first_node := fn;
     MultinodePenalty.second_node := sn;
     MultinodePenalty.node := (fn, sn);
     MultinodePenalty.dt := 1;
     MultinodePenalty.node_idx := [0];
     MultinodePenalty.constraint_type := INTERNAL |}.

(** The node arguments the specification lists: a marker or an integer that
    is not negative. *)
Inductive listed_node : PyValue → Prop :=
| listed_marker n : n ∈ [START; MID; PENULTIMATE; END] → listed_node (PyNode n)
| listed_index z : 0 <= z → listed_node (PyInt z).

(** The node arguments the constructor lets through: a marker or an integer
    of either sign ([True] and [False] are integers in Python). *)
Inductive accepted_node : PyValue → Prop :=
| accepted_marker n : n ∈ [START; MID; PENULTIMATE; END] → accepted_node (PyNode n)
| accepted_int z : accepted_node (PyInt z)
| accepted_bool b : accepted_node (PyBool b).

(** ** Node contexts that differ in one state expression *)

(** The phase [nlp] with [x] as its start-of-interval state. *)
Definition with_cx {MX} (x : MX) (nlp : NLP.t MX) : NLP.t MX :=
  {| NLP.g_internal := NLP.g_internal nlp;
     NLP.J_internal := NLP.J_internal nlp;
     NLP.states :=
       {| OptimizationVariableList.cx := x;
          OptimizationVariableList.cx_end :=
            OptimizationVariableList.cx_end (NLP.states nlp);
          OptimizationVariableList.elements :=
            OptimizationVariableList.elements (NLP.states nlp) |};
     NLP.model := NLP.model nlp |}.

(** The phase [nlp] with [x] as its end-of-interval state. *)
Definition with_cx_end {MX} (x : MX) (nlp : NLP.t MX) : NLP.t MX :=
  {| NLP.g_internal := NLP.g_internal nlp;
     NLP.J_internal := NLP.J_internal nlp;
     NLP.states :=
       {| OptimizationVariableList.cx := OptimizationVariableList.cx (NLP.states nlp);
          OptimizationVariableList.cx_end := x;
          OptimizationVariableList.elements :=
            OptimizationVariableList.elements (NLP.states nlp) |};
     NLP.model := NLP.model nlp |}.

(** [all_pn] for a pre and a post phase. *)
Definition node_pair {MX} (ocp : OCP.t) (pre post : NLP.t MX)
    : list (PenaltyNodeList.t MX) :=
  [ {| PenaltyNodeList.ocp := ocp; PenaltyNodeList.nlp := Some pre |};
    {| PenaltyNodeList.ocp := ocp; PenaltyNodeList.nlp := Some post |} ].

(** The two mapped state vectors every strategy starts from: the
    end-of-interval state of the pre node through [to_second], the
    start-of-interval state of the post node through [to_first]. *)
Definition mapped_pre {MX} (mp : MultinodePenalty.t MX) (pre : NLP.t MX) : MX :=
  Mapping.map (BiMapping.to_second (MultinodePenalty.states_mapping mp))
    (OptimizationVariableList.cx_end (NLP.states pre)).

Definition mapped_post {MX} (mp : MultinodePenalty.t MX) (post : NLP.t MX) : MX :=
  Mapping.map (BiMapping.to_first (MultinodePenalty.states_mapping mp))
    (OptimizationVariableList.cx (NLP.states post)).

(** * Properties *)

(** ** Loops over a pool *)

Lemma grow_closed_form (k : Z) (g : list slot) :
  grow k g = g ++ replicate (Z.to_nat (k + 1 - Z.of_nat (length g))) SEmpty.
Proof.
  funelim (grow k g).
  - match goal with IH : grow _ _ = (_ ++ _) ++ _ |- _ => rewrite IH end.
    rewrite length_app. simpl.
    replace (Z.to_nat (k + 1 - Z.of_nat (length g)))
      with (S (Z.to_nat (k + 1 - Z.of_nat (length g + 1)))) by lia.
    simpl. by rewrite <- app_assoc.
  - replace (Z.to_nat (k + 1 - Z.of_nat (length g))) with 0%nat by lia.
    simpl. by rewrite app_nil_r.
Qed.

Lemma grow_nonneg (k : Z) (g : list slot) :
  0 <= k →
  grow k g = g ++ replicate (Z.to_nat k + 1 - length g)%nat SEmpty.
Proof.
  intros Hk. rewrite grow_closed_form. do 2 f_equal. lia.
Qed.

Lemma first_free_Some (i j : Z) (g : list slot) :
  first_free i g = Some j →
  i <= j < i + Z.of_nat (length g) ∧ g !! Z.to_nat (j - i) = Some SEmpty.
Proof.
  revert i. induction g as [|s g IH]; intros i; simpl; [done|].
  destruct s; simpl.
  - intros [= <-]. replace (i - i) with 0 by lia. split; [lia|done].
  - intros H. apply IH in H as [H1 H2]. split; [lia|].
    replace (Z.to_nat (j - i)) with (S (Z.to_nat (j - (i + 1)))) by lia.
    done.
Qed.

Lemma first_free_None (i : Z) (g : list slot) :
  first_free i g = None → Forall (λ s, slot_truthy s = true) g.
Proof.
  revert i. induction g as [|s g IH]; intros i; simpl; [constructor|].
  destruct s; simpl; [done|]. intros H. constructor; [done|]. by eapply IH.
Qed.

(** ** Reading and writing the selected pool *)

Section Pools.
Context {MX : Type}.
Implicit Types (ocp : OCP.t) (nlp : option (NLP.t MX)) (X : pool_name).

Lemma pool_of_store X g ocp nlp :
  pool_of X (store_pool X g ocp nlp).1 (store_pool X g ocp nlp).2 = g.
Proof. by destruct nlp, X. Qed.

Lemma pool_of_store_other X g ocp nlp :
  pool_of (other_pool X) (store_pool X g ocp nlp).1 (store_pool X g ocp nlp).2
  = pool_of (other_pool X) ocp nlp.
Proof. by destruct nlp, X. Qed.

Lemma store_pool_store X g g' ocp nlp :
  store_pool X g' (store_pool X g ocp nlp).1 (store_pool X g ocp nlp).2
  = store_pool X g' ocp nlp.
Proof. by destruct nlp, X. Qed.

Lemma store_pool_same X ocp nlp :
  store_pool X (pool_of X ocp nlp) ocp nlp = (ocp, nlp).
Proof. destruct nlp as [[]|], X, ocp; reflexivity. Qed.

Lemma store_pool_owner X g ocp nlp :
  (is_Some nlp → (store_pool X g ocp nlp).1 = ocp) ∧
  (nlp = None → (store_pool X g ocp nlp).2 = None) ∧
  OCP.n_phases (store_pool X g ocp nlp).1 = OCP.n_phases ocp.
Proof. destruct nlp, X; split_and!; try done; by intros [? [=]]. Qed.

Lemma set_list_index_same (self : MultinodePenalty.t MX) :
  MultinodePenalty.set_list_index (MultinodePenalty.list_index self) self = self.
Proof. by destruct self. Qed.

End Pools.

(** ** The reservation algorithm *)

Lemma reserve_slot_index_nonneg (k : Z) (g : list slot) :
  0 <= (reserve_slot k g).1.
Proof.
  unfold reserve_slot. case_bool_decide; simpl; [|lia].
  destruct (first_free 0 g) as [i|] eqn:E; simpl; [|lia].
  apply first_free_Some in E. lia.
Qed.

Lemma reserve_slot_empty (k : Z) (g : list slot) :
  (reserve_slot k g).2 !! Z.to_nat (reserve_slot k g).1 = Some SEmpty.
Proof.
  unfold reserve_slot. case_bool_decide; simpl.
  - destruct (first_free 0 g) as [i|] eqn:E; simpl.
    + apply first_free_Some in E as [_ E]. by rewrite Z.sub_0_r in E.
    + rewrite Nat2Z.id. rewrite lookup_app_r by lia.
      by rewrite Nat.sub_diag.
  - apply list_lookup_insert_eq. rewrite length_app, length_replicate. lia.
Qed.

Lemma reserve_slot_length (k : Z) (g : list slot) :
  (length g ≤ length (reserve_slot k g).2)%nat.
Proof.
  unfold reserve_slot. case_bool_decide; simpl.
  - destruct (first_free 0 g); simpl; [lia|]. rewrite length_app. lia.
  - rewrite length_insert, length_app. lia.
Qed.

Lemma reserve_slot_again (k : Z) (g : list slot) :
  reserve_slot (reserve_slot k g).1 (reserve_slot k g).2 = reserve_slot k g.
Proof.
  pose proof (reserve_slot_index_nonneg k g) as Hk.
  pose proof (reserve_slot_empty k g) as Hs.
  destruct (reserve_slot k g) as [i g'] eqn:E. simpl in *.
  unfold reserve_slot at 1. rewrite bool_decide_eq_false_2 by lia.
  f_equal.
  apply lookup_lt_Some in Hs as Hlt.
  replace (Z.to_nat i + 1 - length g')%nat with 0%nat by lia.
  simpl. rewrite app_nil_r. by apply list_insert_id.
Qed.

Lemma reserve_slot_grows (k : Z) (g : list slot) :
  0 <= k → (Z.of_nat (length g) < k + 1) →
  (reserve_slot k g).1 = k ∧
  Z.of_nat (length (reserve_slot k g).2) = k + 1 ∧
  take (length g) (reserve_slot k g).2 = g ∧
  (∀ i, (length g ≤ i < length (reserve_slot k g).2)%nat →
        (reserve_slot k g).2 !! i = Some SEmpty).
Proof.
  intros Hk Hlen. unfold reserve_slot.
  rewrite bool_decide_eq_false_2 by lia. simpl.
  assert (<[Z.to_nat k:=SEmpty]> (g ++ replicate (Z.to_nat k + 1 - length g)%nat SEmpty)
          = g ++ replicate (Z.to_nat k + 1 - length g)%nat SEmpty) as ->.
  { apply list_insert_id. rewrite lookup_app_r by lia.
    apply lookup_replicate_2. lia. }
  split_and!.
  - done.
  - rewrite length_app, length_replicate. lia.
  - by rewrite take_app_length.
  - intros i. rewrite length_app, length_replicate. intros Hi.
    rewrite lookup_app_r by lia. apply lookup_replicate_2. lia.
Qed.

(** ** The two [clear_penalty] methods run the reservation algorithm *)

Section Reservation.
Context {MX : Type}.
Implicit Types (self : MultinodePenalty.t MX) (ocp : OCP.t) (nlp : option (NLP.t MX)).

Lemma penalty_clear_penalty_reserve self ocp nlp :
  MultinodePenalty.clear_penalty self ocp nlp =
  let X := routed_pool self in
  let r := reserve_slot (MultinodePenalty.list_index self) (pool_of X ocp nlp) in
  (MultinodePenalty.set_list_index r.1 self, store_pool X r.2 ocp nlp).
Proof.
  unfold MultinodePenalty.clear_penalty, reserve_slot, routed_pool. simpl.
  set (X := if py_eq_zero _ then _ else _).
  destruct (Z.ltb_spec (MultinodePenalty.list_index self) 0) as [Hk|Hk].
  - rewrite bool_decide_eq_true_2 by done.
    destruct (first_free 0 (pool_of X ocp nlp)); simpl.
    + by rewrite store_pool_same.
    + rewrite length_app. simpl. do 2 f_equal. lia.
  - rewrite bool_decide_eq_false_2 by lia. simpl.
    by rewrite set_list_index_same, grow_nonneg.
Qed.

Lemma objective_clear_penalty_reserve self ocp nlp :
  MultinodeObjective.clear_penalty self ocp nlp =
  let r := reserve_slot (MultinodePenalty.list_index self) (pool_of J_internal ocp nlp) in
  (MultinodePenalty.set_list_index r.1 self, store_pool J_internal r.2 ocp nlp).
Proof.
  unfold MultinodeObjective.clear_penalty, reserve_slot. simpl.
  destruct (Z.ltb_spec (MultinodePenalty.list_index self) 0) as [Hk|Hk].
  - rewrite bool_decide_eq_true_2 by done.
    destruct (first_free 0 (pool_of J_internal ocp nlp)); simpl.
    + by rewrite store_pool_same.
    + rewrite length_app. simpl. do 2 f_equal. lia.
  - rewrite bool_decide_eq_false_2 by lia. simpl.
    by rewrite set_list_index_same, grow_nonneg.
Qed.

Lemma reserves_in_intro clear X self ocp nlp :
  clear self ocp nlp =
    (MultinodePenalty.set_list_index
       (reserve_slot (MultinodePenalty.list_index self) (pool_of X ocp nlp)).1 self,
     store_pool X
       (reserve_slot (MultinodePenalty.list_index self) (pool_of X ocp nlp)).2 ocp nlp) →
  reserves_in clear X self ocp nlp.
Proof.
  intros E. unfold reserves_in. rewrite E. simpl.
  pose proof (store_pool_owner X
    (reserve_slot (MultinodePenalty.list_index self) (pool_of X ocp nlp)).2 ocp nlp)
    as (H1 & H2 & _).
  split_and!; auto using pool_of_store, pool_of_store_other.
Qed.

Lemma installs_in_intro (X : pool_name) self (all_pn : list (PenaltyNodeList.t MX))
    (install : MultinodePenalty.t MX → list (PenaltyNodeList.t MX) →
               result (list (PenaltyNodeList.t MX))) :
  install self all_pn =
    match all_pn !! 0%nat with
    | None => Raise (IndexError "list index out of range")
    | Some pn0 =>
        let ocp := PenaltyNodeList.ocp pn0 in
        let nlp := PenaltyNodeList.nlp pn0 in
        pool ← py_setitem (pool_of X ocp nlp) (MultinodePenalty.list_index self)
                  (SPenalty (MultinodePenalty.obj_id self));
        let '(ocp, nlp) := store_pool X pool ocp nlp in
        Ok (<[0%nat := {| PenaltyNodeList.ocp := ocp; PenaltyNodeList.nlp := nlp |}]> all_pn)
    end →
  installs_in install X self all_pn.
Proof.
  intros E. unfold installs_in. destruct all_pn as [|pn0 rest]; simpl in *.
  { eauto. }
  rewrite E.
  destruct (py_setitem _ _ _) as [pool|e]; simpl; [|done].
  destruct (store_pool X pool (PenaltyNodeList.ocp pn0) (PenaltyNodeList.nlp pn0))
    as [ocp' nlp'] eqn:Es.
  eexists. split; [reflexivity|]. simpl.
  pose proof (pool_of_store X pool (PenaltyNodeList.ocp pn0) (PenaltyNodeList.nlp pn0)).
  pose proof (pool_of_store_other X pool (PenaltyNodeList.ocp pn0) (PenaltyNodeList.nlp pn0)).
  rewrite Es in *. done.
Qed.

End Reservation.

(** ** Pool routing, idempotence and growth *)

Section PoolProperties.
Context {MX : Type}.
Implicit Types (self : MultinodePenalty.t MX) (ocp : OCP.t) (nlp : option (NLP.t MX)).

(** C3: for a MultinodePenalty, a weight equal to zero makes [clear_penalty]
    and [_add_penalty_to_pool] work on the constraint pool [g_internal], any
    other weight makes them work on the objective pool [J_internal]; and the
    constructor stores the weight it is given and sets the quadratic flag. *)
Theorem weight_routing self ocp nlp (all_pn : list (PenaltyNodeList.t MX)) :
  (py_eq_zero (MultinodePenalty.weight self) = true →
     reserves_in MultinodePenalty.clear_penalty g_internal self ocp nlp ∧
     installs_in MultinodePenalty._add_penalty_to_pool g_internal self all_pn) ∧
  (py_eq_zero (MultinodePenalty.weight self) = false →
     reserves_in MultinodePenalty.clear_penalty J_internal self ocp nlp ∧
     installs_in MultinodePenalty._add_penalty_to_pool J_internal self all_pn) ∧
  (∀ self0 pf ps fn sn lo hi w p,
     MultinodePenalty.__init__ self0 pf ps fn sn lo hi w = Ok p →
     MultinodePenalty.weight p = w ∧ MultinodePenalty.quadratic p = true).
Proof.
  split_and!.
  - intros Hw. split.
    + apply reserves_in_intro. rewrite penalty_clear_penalty_reserve.
      unfold routed_pool. by rewrite Hw.
    + apply installs_in_intro. unfold MultinodePenalty._add_penalty_to_pool.
      by rewrite Hw.
  - intros Hw. split.
    + apply reserves_in_intro. rewrite penalty_clear_penalty_reserve.
      unfold routed_pool. by rewrite Hw.
    + apply installs_in_intro. unfold MultinodePenalty._add_penalty_to_pool.
      by rewrite Hw.
  - intros self0 pf ps fn sn lo hi w p. unfold MultinodePenalty.__init__.
    destruct (negb (py_in_nodes fn _)), (negb (isinstance_int fn)),
      (negb (py_in_nodes sn _)), (negb (isinstance_int sn));
      simpl; intros [= <-]; done.
Qed.

(** C5: calling [clear_penalty] twice in succession claims the same
    [list_index] both times, the slot at that index of the selected pool is
    empty after each call, and the second call changes nothing. *)
Theorem clear_penalty_idempotent self ocp nlp :
  let X := routed_pool self in
  let once := MultinodePenalty.clear_penalty self ocp nlp in
  let twice := MultinodePenalty.clear_penalty once.1 once.2.1 once.2.2 in
  MultinodePenalty.list_index twice.1 = MultinodePenalty.list_index once.1 ∧
  0 <= MultinodePenalty.list_index once.1 ∧
  pool_of X once.2.1 once.2.2 !! Z.to_nat (MultinodePenalty.list_index once.1)
    = Some SEmpty ∧
  pool_of X twice.2.1 twice.2.2 !! Z.to_nat (MultinodePenalty.list_index twice.1)
    = Some SEmpty ∧
  twice = once.
Proof.
  intros X once twice.
  assert (twice = once) as Heq.
  { subst twice once. rewrite !penalty_clear_penalty_reserve. simpl.
    change (routed_pool (MultinodePenalty.set_list_index _ self)) with X.
    rewrite pool_of_store, store_pool_store, reserve_slot_again.
    by destruct self. }
  rewrite Heq. subst once. rewrite penalty_clear_penalty_reserve. simpl.
  rewrite pool_of_store.
  split_and!; auto using reserve_slot_index_nonneg, reserve_slot_empty.
Qed.

(** C6: [clear_penalty] never shortens the selected pool (and leaves the other
    one as it is); with [list_index = k >= 0] and a pool shorter than [k + 1]
    it keeps [k], leaves the pool with exactly [k + 1] slots, the old ones
    unchanged, every new one empty, and slot [k] empty. *)
Theorem clear_penalty_pool_growth self ocp nlp :
  let X := routed_pool self in
  let g := pool_of X ocp nlp in
  let after := MultinodePenalty.clear_penalty self ocp nlp in
  let g' := pool_of X after.2.1 after.2.2 in
  (length g ≤ length g')%nat ∧
  pool_of (other_pool X) after.2.1 after.2.2 = pool_of (other_pool X) ocp nlp ∧
  ∀ k, MultinodePenalty.list_index self = k → 0 <= k → Z.of_nat (length g) < k + 1 →
    MultinodePenalty.list_index after.1 = k ∧
    Z.of_nat (length g') = k + 1 ∧
    take (length g) g' = g ∧
    (∀ i, (length g ≤ i < length g')%nat → g' !! i = Some SEmpty) ∧
    g' !! Z.to_nat k = Some SEmpty.
Proof.
  intros X g after g'. subst after g'.
  rewrite penalty_clear_penalty_reserve. simpl. fold X. fold g.
  rewrite pool_of_store, pool_of_store_other.
  split_and!; [apply reserve_slot_length|done|].
  intros k Hk Hk0 Hlen. rewrite Hk.
  destruct (reserve_slot_grows k g Hk0 Hlen) as (H1 & H2 & H3 & H4).
  split_and!; try done.
  apply H4. lia.
Qed.

(** C7: for a MultinodeObjective, whatever its weight, [clear_penalty] and
    [_add_penalty_to_pool] work on the objective pool [J_internal] and leave
    every constraint pool as it is; with a weight other than zero they are the
    methods of MultinodePenalty. *)
Theorem objective_pool_only self ocp nlp (all_pn : list (PenaltyNodeList.t MX)) :
  reserves_in MultinodeObjective.clear_penalty J_internal self ocp nlp ∧
  installs_in MultinodeObjective._add_penalty_to_pool J_internal self all_pn ∧
  (let after := MultinodeObjective.clear_penalty self ocp nlp in
   OCP.g_internal after.2.1 = OCP.g_internal ocp ∧
   NLP.g_internal <$> after.2.2 = NLP.g_internal <$> nlp) ∧
  (∀ all_pn', MultinodeObjective._add_penalty_to_pool self all_pn = Ok all_pn' →
     (λ pn, OCP.g_internal (PenaltyNodeList.ocp pn)) <$> all_pn'
       = (λ pn, OCP.g_internal (PenaltyNodeList.ocp pn)) <$> all_pn ∧
     (λ pn, NLP.g_internal <$> PenaltyNodeList.nlp pn) <$> all_pn'
       = (λ pn, NLP.g_internal <$> PenaltyNodeList.nlp pn) <$> all_pn) ∧
  (py_eq_zero (MultinodePenalty.weight self) = false →
     MultinodeObjective.clear_penalty self ocp nlp
       = MultinodePenalty.clear_penalty self ocp nlp ∧
     MultinodeObjective._add_penalty_to_pool self all_pn
       = MultinodePenalty._add_penalty_to_pool self all_pn).
Proof.
  split_and!.
  - apply reserves_in_intro, objective_clear_penalty_reserve.
  - by apply installs_in_intro.
  - rewrite objective_clear_penalty_reserve. simpl. by destruct nlp.
  - unfold MultinodeObjective._add_penalty_to_pool.
    destruct all_pn as [|pn0 rest]; simpl; [done|].
    destruct (py_setitem _ _ _) as [pool|e]; simpl; [|done].
    destruct pn0 as [ocp0 [nlp0|]]; simpl; by intros ? [= <-].
  - intros Hw. split.
    + rewrite objective_clear_penalty_reserve, penalty_clear_penalty_reserve.
      unfold routed_pool. by rewrite Hw.
    + unfold MultinodeObjective._add_penalty_to_pool,
        MultinodePenalty._add_penalty_to_pool. by rewrite Hw.
Qed.

End PoolProperties.

(** The theorems above at concrete penalties and pools. *)

Lemma weight_routing_witness :
  reserves_in MultinodePenalty.clear_penalty g_internal
    (sample_entry 1 (NumInt 0) (-1)) sample_ocp None ∧
  reserves_in MultinodePenalty.clear_penalty J_internal
    (sample_entry 1 (NumFloat (S754_finite false 5 0)) (-1)) sample_ocp None ∧
  ∃ p, MultinodePenalty.__init__ (sample_penalty 1) 0 1 (PyNode END) (PyNode START)
         (NumInt 0) (NumInt 0) (NumFloat (S754_finite false 5 0)) = Ok p ∧
       MultinodePenalty.quadratic p = true.
Proof.
  split_and!.
  - apply (weight_routing (sample_entry 1 (NumInt 0) (-1)) sample_ocp None []).
    reflexivity.
  - apply (weight_routing (sample_entry 1 (NumFloat (S754_finite false 5 0)) (-1))
             sample_ocp None []).
    reflexivity.
  - destruct (weight_routing (sample_entry 1 (NumInt 0) (-1)) sample_ocp None [])
      as (_ & _ & H).
    eexists. split; [reflexivity|].
    eapply (H (sample_penalty 1) 0 1 (PyNode END) (PyNode START)
              (NumInt 0) (NumInt 0) (NumFloat (S754_finite false 5 0))).
    reflexivity.
Defined.

Lemma clear_penalty_pool_growth_witness :
  let after :=
    MultinodePenalty.clear_penalty (sample_entry 1 (NumInt 0) 3) sample_ocp None in
  MultinodePenalty.list_index after.1 = 3 ∧
  Z.of_nat (length (OCP.g_internal after.2.1)) = 4.
Proof.
  destruct (clear_penalty_pool_growth (sample_entry 1 (NumInt 0) 3) sample_ocp None)
    as (_ & _ & H).
  destruct (H 3) as (H1 & H2 & _); [reflexivity|lia|simpl; lia|].
  split; [exact H1|exact H2].
Defined.

Lemma objective_pool_only_witness :
  MultinodeObjective.clear_penalty (sample_entry 1 (NumInt 2) (-1)) sample_ocp None
  = MultinodePenalty.clear_penalty (sample_entry 1 (NumInt 2) (-1)) sample_ocp None.
Proof.
  apply (objective_pool_only (sample_entry 1 (NumInt 2) (-1)) sample_ocp None []).
  reflexivity.
Defined.

(** ** Validation of the phase indices *)

Section Prepare.
Context {MX : Type}.
Implicit Types (mnc : MultinodePenalty.t MX) (self : MultinodePenaltyList.t MX).

Lemma first_invalid (n : Z) (l : list (MultinodePenalty.t MX)) :
  ¬ Forall (valid_phases n) l →
  ∃ pre e post, l = pre ++ e :: post ∧ Forall (valid_phases n) pre ∧ ¬ valid_phases n e.
Proof.
  induction l as [|x l IH]; intros H.
  - destruct H. constructor.
  - destruct (decide (valid_phases n x)) as [Hx|Hx].
    + destruct IH as (pre & e & post & -> & Hpre & He).
      { intros Hl. apply H. by constructor. }
      exists (x :: pre), e, post. split_and!; [done| by constructor |done].
    + exists [], x, l. split_and!; [done|constructor|done].
Qed.

Lemma prepare_loop_valid (ocp : OCP.t)
    (visited todo full : list (MultinodePenalty.t MX)) (existing : list Z) :
  Forall (valid_phases (OCP.n_phases ocp)) todo →
  MultinodePenaltyList.prepare_loop ocp visited todo full existing
  = (visited ++ (tagged <$> todo), Ok (full ++ (tagged <$> todo))).
Proof.
  intros H. revert visited full existing.
  induction H as [|mnc todo [[H1 H2] [H3 H4]] _ IH]; intros visited full existing; simpl.
  - by rewrite !app_nil_r.
  - destruct (Z.geb_spec (MultinodePenalty.phase_first_idx mnc) (OCP.n_phases ocp));
      [lia|].
    destruct (Z.geb_spec (MultinodePenalty.phase_second_idx mnc) (OCP.n_phases ocp));
      [lia|].
    destruct (Z.ltb_spec (MultinodePenalty.phase_first_idx mnc) 0); [lia|].
    destruct (Z.ltb_spec (MultinodePenalty.phase_second_idx mnc) 0); [lia|].
    simpl. rewrite IH. fold (tagged mnc). by rewrite <- !app_assoc.
Qed.

Lemma prepare_loop_invalid (ocp : OCP.t)
    (visited pre : list (MultinodePenalty.t MX)) (e : MultinodePenalty.t MX)
    (post full : list (MultinodePenalty.t MX)) (existing : list Z) :
  Forall (valid_phases (OCP.n_phases ocp)) pre →
  ¬ valid_phases (OCP.n_phases ocp) e →
  MultinodePenaltyList.prepare_loop ocp visited (pre ++ e :: post) full existing
  = (visited ++ (tagged <$> pre) ++ e :: post, Raise (phase_error (OCP.n_phases ocp) e)).
Proof.
  intros H He. revert visited full existing.
  induction H as [|mnc todo [[H1 H2] [H3 H4]] _ IH]; intros visited full existing; simpl.
  - unfold phase_error, valid_phases in *.
    destruct (Z.geb_spec (MultinodePenalty.phase_first_idx e) (OCP.n_phases ocp));
      simpl; [by rewrite bool_decide_eq_true_2 by lia|].
    destruct (Z.geb_spec (MultinodePenalty.phase_second_idx e) (OCP.n_phases ocp));
      simpl; [by rewrite bool_decide_eq_true_2 by lia|].
    rewrite bool_decide_eq_false_2 by lia.
    destruct (Z.ltb_spec (MultinodePenalty.phase_first_idx e) 0); simpl; [done|].
    destruct (Z.ltb_spec (MultinodePenalty.phase_second_idx e) 0); simpl; [done|].
    lia.
  - destruct (Z.geb_spec (MultinodePenalty.phase_first_idx mnc) (OCP.n_phases ocp));
      [lia|].
    destruct (Z.geb_spec (MultinodePenalty.phase_second_idx mnc) (OCP.n_phases ocp));
      [lia|].
    destruct (Z.ltb_spec (MultinodePenalty.phase_first_idx mnc) 0); [lia|].
    destruct (Z.ltb_spec (MultinodePenalty.phase_second_idx mnc) 0); [lia|].
    simpl. rewrite IH. fold (tagged mnc). by rewrite <- !app_assoc.
Qed.

Lemma tagged_obj_id mnc : MultinodePenalty.obj_id (tagged mnc) = MultinodePenalty.obj_id mnc.
Proof. unfold tagged. by destruct (py_truthy _). Qed.

(** C2: [prepare_multinode_penalties] raises as soon as it meets an entry with
    a phase index that is negative or not below [n_phases], leaving the entries
    after it untouched, and so raises whenever some entry is invalid; when every
    entry is valid it returns the entries of the list, in their order and as
    many, each one the same object (tagged with the Mayer base when it has a
    weight). *)
Theorem prepare_checks_phase_indices self (ocp : OCP.t) :
  let n := OCP.n_phases ocp in
  let r := MultinodePenaltyList.prepare_multinode_penalties self ocp in
  (Forall (valid_phases n) self →
     r = (tagged <$> self, Ok (tagged <$> self)) ∧
     length (tagged <$> self) = length self ∧
     MultinodePenalty.obj_id <$> (tagged <$> self) = MultinodePenalty.obj_id <$> self) ∧
  (∀ pre e post,
     self = pre ++ e :: post → Forall (valid_phases n) pre → ¬ valid_phases n e →
     r = ((tagged <$> pre) ++ e :: post, Raise (phase_error n e))) ∧
  (¬ Forall (valid_phases n) self → is_ok r.2 = false).
Proof.
  intros n r. subst r. unfold MultinodePenaltyList.prepare_multinode_penalties.
  assert (∀ pre e post,
     self = pre ++ e :: post → Forall (valid_phases n) pre → ¬ valid_phases n e →
     MultinodePenaltyList.prepare_loop ocp [] self [] []
     = ((tagged <$> pre) ++ e :: post, Raise (phase_error n e))) as Hbad.
  { intros pre e post -> Hpre He. by rewrite prepare_loop_invalid. }
  split_and!.
  - intros H. rewrite prepare_loop_valid by done. simpl.
    split_and!; [done|by rewrite length_fmap|].
    rewrite <- list_fmap_compose. apply list_fmap_ext. intros _ x _. apply tagged_obj_id.
  - done.
  - intros H. apply first_invalid in H as (pre & e & post & E & Hpre & He).
    by rewrite (Hbad _ _ _ E Hpre He).
Qed.

End Prepare.

Lemma prepare_checks_phase_indices_witness :
  (MultinodePenaltyList.prepare_multinode_penalties
     [sample_entry 1 (NumInt 2) 0; sample_entry 2 (NumInt 0) 0] sample_ocp).2
  = Ok [MultinodePenalty.set_base MayerFunction (sample_entry 1 (NumInt 2) 0);
        sample_entry 2 (NumInt 0) 0] ∧
  is_ok (MultinodePenaltyList.prepare_multinode_penalties
     [sample_entry 1 (NumInt 2) 0; sample_entry 2 (NumInt 0) 0]
     {| OCP.n_phases := 1; OCP.g_internal := []; OCP.J_internal := [] |}).2 = false.
Proof.
  split.
  - destruct (prepare_checks_phase_indices
                [sample_entry 1 (NumInt 2) 0; sample_entry 2 (NumInt 0) 0] sample_ocp)
      as (H & _ & _).
    destruct H as (H & _ & _).
    + repeat constructor; simpl; lia.
    + rewrite H. reflexivity.
  - apply (prepare_checks_phase_indices
             [sample_entry 1 (NumInt 2) 0; sample_entry 2 (NumInt 0) 0]
             {| OCP.n_phases := 1; OCP.g_internal := []; OCP.J_internal := [] |}).
    intros H. apply Forall_cons_1 in H as [[_ H] _]. simpl in H. lia.
Defined.

(** ** Construction *)

Section Construction.
Context {MX : Type}.
Implicit Types (self : MultinodePenalty.t MX) (l : MultinodePenaltyList.t MX).

Lemma listed_node_accepted (v : PyValue) : listed_node v → accepted_node v.
Proof. destruct 1; by constructor. Qed.

(** The guard of the constructor lets a value through exactly when it is a
    marker or an integer. *)
Lemma node_guard_accepts (v : PyValue) :
  (if negb (py_in_nodes v [START; MID; PENULTIMATE; END]) then
     if negb (isinstance_int v) then false else true
   else true) = true ↔ accepted_node v.
Proof.
  split.
  - destruct v as [n|z|b|f|s|]; simpl; try done.
    + intros H. constructor.
      destruct n; simpl in H; try done; rewrite !elem_of_cons; auto.
    + intros _. constructor.
    + intros _. constructor.
  - destruct 1 as [n Hn| |]; simpl; try done.
    repeat (apply elem_of_cons in Hn as [->|Hn]; [done|]).
    by apply elem_of_nil in Hn.
Qed.

Lemma init_outcome self pf ps fn sn lo hi w :
  (accepted_node fn ∧ accepted_node sn ∧
   MultinodePenalty.__init__ self pf ps fn sn lo hi w
   = Ok (initialised self pf ps fn sn lo hi w)) ∨
  (¬ (accepted_node fn ∧ accepted_node sn) ∧
   MultinodePenalty.__init__ self pf ps fn sn lo hi w
   = Raise MultinodePenalty.node_error).
Proof.
  pose proof (node_guard_accepts fn) as Hf.
  pose proof (node_guard_accepts sn) as Hs.
  unfold MultinodePenalty.__init__.
  destruct (negb (py_in_nodes fn _)), (negb (isinstance_int fn)),
    (negb (py_in_nodes sn _)), (negb (isinstance_int sn)); simpl;
    first [ left; split_and!; [by apply Hf|by apply Hs|done]
          | right; split; [|done]; intros [H1 H2];
            first [ by apply Hf in H1 | by apply Hs in H2 ] ].
Qed.

(** C1, as the code has it: construction succeeds exactly when each node
    argument is one of the markers START, MID, PENULTIMATE, END or an integer,
    of either sign; in particular it succeeds for the markers and the
    non-negative integers.  For every other pair of node arguments it raises
    the NotImplementedError that names the markers. *)
Theorem init_node_arguments self pf ps fn sn lo hi w :
  (listed_node fn → accepted_node fn) ∧
  (accepted_node fn → accepted_node sn →
     ∃ p, MultinodePenalty.__init__ self pf ps fn sn lo hi w = Ok p ∧
          MultinodePenalty.first_node p = fn ∧
          MultinodePenalty.second_node p = sn) ∧
  (¬ (accepted_node fn ∧ accepted_node sn) →
     MultinodePenalty.__init__ self pf ps fn sn lo hi w
     = Raise (NotImplementedError
         "Multi Node Penalty only works with Node.START, Node.MID, Node.PENULTIMATE, Node.END or a int.")).
Proof.
  destruct (init_outcome self pf ps fn sn lo hi w) as [(Hf & Hs & E)|[H E]];
    rewrite E; split_and!.
  - apply listed_node_accepted.
  - intros _ _. by eexists.
  - intros H. by destruct H.
  - apply listed_node_accepted.
  - intros Hf Hs. by destruct H.
  - done.
Qed.

(** C9: an entry has [constraint_type = INTERNAL] as soon as it is
    constructed, as a MultinodePenalty or as a MultinodeObjective, directly or
    through the [add] method of a list, whatever the object held before. *)
Theorem construction_is_internal :
  (∀ self pf ps fn sn lo hi w p,
     MultinodePenalty.__init__ self pf ps fn sn lo hi w = Ok p →
     MultinodePenalty.constraint_type p = INTERNAL) ∧
  (∀ self pf ps fn sn w p,
     MultinodeObjective.__init__ self pf ps fn sn w = Ok p →
     MultinodePenalty.constraint_type p = INTERNAL) ∧
  (∀ l new pf ps fn sn lo hi w l',
     MultinodePenaltyList.add l new pf ps fn sn lo hi w = Ok l' →
     ∃ p, l' = l ++ [p] ∧ MultinodePenalty.constraint_type p = INTERNAL) ∧
  (∀ l new pf ps fn sn w l',
     MultinodeObjectiveList.add l new pf ps fn sn w = Ok l' →
     ∃ p, l' = l ++ [p] ∧ MultinodePenalty.constraint_type p = INTERNAL).
Proof.
  assert (∀ self pf ps fn sn lo hi w p,
     MultinodePenalty.__init__ self pf ps fn sn lo hi w = Ok p →
     MultinodePenalty.constraint_type p = INTERNAL) as Hinit.
  { intros self pf ps fn sn lo hi w p.
    destruct (init_outcome self pf ps fn sn lo hi w) as [(_ & _ & E)|[_ E]];
      rewrite E; by intros [= <-]. }
  split_and!.
  - done.
  - intros self pf ps fn sn w p. unfold MultinodeObjective.__init__. apply Hinit.
  - intros l new pf ps fn sn lo hi w l'.
    unfold MultinodePenaltyList.add, MultinodePenaltyList._add.
    destruct (MultinodePenalty.__init__ _ _ _ _ _ _ _ _) as [p|e] eqn:E; simpl; [|done].
    intros [= <-]. eauto.
  - intros l new pf ps fn sn w l'.
    unfold MultinodeObjectiveList.add, MultinodePenaltyList._add,
      MultinodeObjective.__init__.
    destruct (MultinodePenalty.__init__ _ _ _ _ _ _ _ _) as [p|e] eqn:E; simpl; [|done].
    intros [= <-]. eauto.
Qed.

(** The initialiser of MultinodeObjective hands its [weight] to [Objective]
    only: the one of MultinodePenalty then stores its own default. *)
Remark objective_init_weight self pf ps fn sn w p :
  MultinodeObjective.__init__ self pf ps fn sn w = Ok p →
  MultinodePenalty.weight p = NumInt 0.
Proof.
  unfold MultinodeObjective.__init__.
  destruct (init_outcome self pf ps fn sn (NumInt 0) (NumInt 0) (NumInt 0))
    as [(_ & _ & E)|[_ E]]; rewrite E; by intros [= <-].
Qed.

End Construction.

Lemma init_node_arguments_witness :
  (∃ p, MultinodePenalty.__init__ (sample_penalty 1) 0 1 (PyNode END) (PyInt (-2))
          (NumInt 0) (NumInt 0) (NumInt 0) = Ok p ∧
        MultinodePenalty.first_node p = PyNode END ∧
        MultinodePenalty.second_node p = PyInt (-2)) ∧
  MultinodePenalty.__init__ (sample_penalty 1) 0 1 (PyStr "end") (PyInt 0)
    (NumInt 0) (NumInt 0) (NumInt 0)
  = Raise (NotImplementedError
      "Multi Node Penalty only works with Node.START, Node.MID, Node.PENULTIMATE, Node.END or a int.").
Proof.
  split.
  - apply (init_node_arguments (sample_penalty 1) 0 1 (PyNode END) (PyInt (-2))
             (NumInt 0) (NumInt 0) (NumInt 0)).
    + constructor. rewrite !elem_of_cons. auto.
    + constructor.
  - apply (init_node_arguments (sample_penalty 1) 0 1 (PyStr "end") (PyInt 0)
             (NumInt 0) (NumInt 0) (NumInt 0)).
    intros [H _]. inversion H.
Defined.

(** C1 as stated fails: a negative integer is not among the listed node
    arguments, and construction with it succeeds. *)
Lemma init_negative_index_counterexample :
  ¬ listed_node (PyInt (-1)) ∧
  is_ok (MultinodePenalty.__init__ (sample_penalty 1) 0 1 (PyInt (-1)) (PyNode START)
           (NumInt 0) (NumInt 0) (NumInt 0)) = true.
Proof.
  split; [|reflexivity].
  intros H. inversion H. lia.
Qed.

Lemma construction_is_internal_witness :
  MultinodePenalty.constraint_type (sample_penalty 1) = USER ∧
  ∃ p, MultinodePenalty.__init__ (sample_penalty 1) 0 1 (PyNode END) (PyNode START)
         (NumInt 0) (NumInt 0) (NumInt 0) = Ok p ∧
       MultinodePenalty.constraint_type p = INTERNAL.
Proof.
  split; [reflexivity|].
  eexists. split; [reflexivity|].
  eapply (proj1 (construction_is_internal (MX := dense))
            (sample_penalty 1) 0 1 (PyNode END) (PyNode START)
            (NumInt 0) (NumInt 0) (NumInt 0)).
  reflexivity.
Defined.

(** ** The strategies *)

Lemma string_app_assoc (a b c : string) : (a +:+ b) +:+ c = a +:+ (b +:+ c).
Proof.
  induction a as [|x a IH]; [reflexivity|].
  change (String x ((a +:+ b) +:+ c) = String x (a +:+ (b +:+ c))).
  by rewrite IH.
Qed.

Section Strategies.
Context {scalar MX : Type} `{!Casadi scalar MX}.
Implicit Types (mp : MultinodePenalty.t MX) (pre post : NLP.t MX) (ocp : OCP.t).

Lemma mismatch_message_suggests (s1 s2 : nat * nat) :
  ∃ prefix,
    MultinodePenaltyFunctions.mismatch_message s1 s2
    = prefix +:+ "Please use a custom transition or supply states_mapping".
Proof.
  exists ("Continuity can't be established since the number of x to be matched is "
          +:+ show_shape s1 +:+ " in the pre-transition phase and "
          +:+ show_shape s2 +:+ " post-transition phase. ").
  unfold MultinodePenaltyFunctions.mismatch_message.
  rewrite !string_app_assoc. reflexivity.
Qed.

Lemma lookup_key_elem (key : string)
    (l : list (string * OptimizationVariable.t MX)) :
  key ∈ l.*1 → ∃ v, OptimizationVariableList.lookup_key key l = Ok v.
Proof.
  induction l as [|[k v] l IH]; simpl.
  - by intros ?%elem_of_nil.
  - intros [->|H]%elem_of_cons.
    + rewrite bool_decide_eq_true_2 by done. eauto.
    + case_bool_decide; eauto.
Qed.

(** The list of fresh symbols is always built: every key has its block. *)
Lemma states_sym_list_total (states : OptimizationVariableList.t MX) :
  ∃ syms, MultinodePenaltyFunctions.states_sym_list states = Ok syms ∧
          length syms = length (OptimizationVariableList.elements states).
Proof.
  unfold MultinodePenaltyFunctions.states_sym_list,
    OptimizationVariableList.getitem, OptimizationVariableList.keys.
  set (els := OptimizationVariableList.elements states).
  assert (∀ ks : list string, (∀ k, k ∈ ks → k ∈ els.*1) →
    ∃ syms,
      mapM (λ key, v ← OptimizationVariableList.lookup_key key els;
                   Ok (MX_sym key (mx_shape (OptimizationVariable.mx v)).1
                                  (mx_shape (OptimizationVariable.mx v)).2)) ks
      = Ok syms ∧ length syms = length ks) as Hgen.
  { induction ks as [|k ks IH]; intros Hks; simpl.
    - by exists [].
    - destruct (lookup_key_elem k els) as [v Hv].
      { apply Hks. by left. }
      destruct IH as (syms & E & Hlen).
      { intros k' Hk'. apply Hks. by right. }
      rewrite Hv. simpl. rewrite E. simpl. eexists. split; [done|]. simpl. by rewrite Hlen. }
  destruct (Hgen (els.*1)) as (syms & E & Hlen); [done|].
  exists syms. split; [done|]. by rewrite Hlen, length_fmap.
Qed.

Lemma equality_same_shape mp ocp pre post :
  mx_shape (mapped_pre mp pre) = mx_shape (mapped_post mp post) →
  MultinodePenaltyFunctions.equality mp (node_pair ocp pre post)
  = Ok (mx_minus (mapped_pre mp pre) (mapped_post mp post)).
Proof.
  intros Hs. unfold MultinodePenaltyFunctions.equality. simpl.
  fold (mapped_pre mp pre). fold (mapped_post mp post).
  by rewrite bool_decide_eq_false_2 by (by intros []).
Qed.

Lemma equality_mismatch mp ocp pre post :
  mx_shape (mapped_pre mp pre) ≠ mx_shape (mapped_post mp post) →
  MultinodePenaltyFunctions.equality mp (node_pair ocp pre post)
  = Raise (RuntimeError (MultinodePenaltyFunctions.mismatch_message
             (mx_shape (mapped_pre mp pre)) (mx_shape (mapped_post mp post)))).
Proof.
  intros Hs. unfold MultinodePenaltyFunctions.equality. simpl.
  fold (mapped_pre mp pre). fold (mapped_post mp post).
  by rewrite bool_decide_eq_true_2.
Qed.

Lemma equality_ignores_other_states mp ocp pre post (x y : MX) :
  MultinodePenaltyFunctions.equality mp
    (node_pair ocp (with_cx x pre) (with_cx_end y post))
  = MultinodePenaltyFunctions.equality mp (node_pair ocp pre post).
Proof. reflexivity. Qed.

Lemma com_velocity_equality_result mp ocp pre post q qdot syms sym0 sym1 :
  mx_shape (mapped_pre mp pre) = mx_shape (mapped_post mp post) →
  OptimizationVariableList.getitem (NLP.states pre) "q" = Ok q →
  OptimizationVariableList.getitem (NLP.states pre) "qdot" = Ok qdot →
  MultinodePenaltyFunctions.states_sym_list (NLP.states post) = Ok syms →
  syms !! 0%nat = Some sym0 →
  syms !! 1%nat = Some sym1 →
  MultinodePenaltyFunctions.com_velocity_equality mp (node_pair ocp pre post)
  = Ok (to_casadi_func "com_dot_equality"
          (mx_minus
             (BiorbdModel.CoMdot (NLP.model pre)
                (mx_getitem_rows (mapped_pre mp pre) (OptimizationVariable.index q))
                (mx_getitem_rows (mapped_pre mp pre) (OptimizationVariable.index qdot)))
             (BiorbdModel.CoMdot (NLP.model post) sym0 sym1))
          [mapped_pre mp pre; vertcat syms]
          [OptimizationVariableList.cx_end (NLP.states pre);
           OptimizationVariableList.cx (NLP.states post)]).
Proof.
  intros Hs Hq Hqd Hsyms H0 H1.
  unfold MultinodePenaltyFunctions.com_velocity_equality. simpl.
  fold (mapped_pre mp pre). fold (mapped_post mp post).
  rewrite Hsyms. simpl.
  rewrite bool_decide_eq_false_2 by (by intros []).
  rewrite Hq. simpl. rewrite Hqd. simpl.
  unfold MultinodePenaltyFunctions.list_getitem. rewrite H0. simpl. rewrite H1.
  reflexivity.
Qed.

Lemma com_velocity_equality_ignores_other_states mp ocp pre post (x y : MX) :
  MultinodePenaltyFunctions.com_velocity_equality mp
    (node_pair ocp (with_cx x pre) (with_cx_end y post))
  = MultinodePenaltyFunctions.com_velocity_equality mp (node_pair ocp pre post).
Proof. reflexivity. Qed.

Lemma com_equality_result mp ocp pre post q syms sym0 :
  mx_shape (mapped_pre mp pre) = mx_shape (mapped_post mp post) →
  OptimizationVariableList.getitem (NLP.states pre) "q" = Ok q →
  MultinodePenaltyFunctions.states_sym_list (NLP.states post) = Ok syms →
  syms !! 0%nat = Some sym0 →
  MultinodePenaltyFunctions.com_equality mp (node_pair ocp pre post)
  = Ok (to_casadi_func "com_equality"
          (mx_minus
             (BiorbdModel.CoM (NLP.model pre)
                (mx_getitem_rows (mapped_pre mp pre) (OptimizationVariable.index q)))
             (BiorbdModel.CoM (NLP.model post) sym0))
          [mapped_pre mp pre; vertcat syms]
          [OptimizationVariableList.cx (NLP.states pre);
           OptimizationVariableList.cx (NLP.states post)]).
Proof.
  intros Hs Hq Hsyms H0.
  unfold MultinodePenaltyFunctions.com_equality. simpl.
  fold (mapped_pre mp pre). fold (mapped_post mp post).
  rewrite Hsyms. simpl.
  rewrite bool_decide_eq_false_2 by (by intros []).
  rewrite Hq. simpl.
  unfold MultinodePenaltyFunctions.list_getitem. rewrite H0.
  reflexivity.
Qed.

Lemma com_equality_ignores_post_end mp ocp pre post (y : MX) :
  MultinodePenaltyFunctions.com_equality mp (node_pair ocp pre (with_cx_end y post))
  = MultinodePenaltyFunctions.com_equality mp (node_pair ocp pre post).
Proof. reflexivity. Qed.

End Strategies.

Section StrategyProperties.
Context {scalar MX : Type} `{!Casadi scalar MX}.
Implicit Types (mp : MultinodePenalty.t MX) (pre post : NLP.t MX) (ocp : OCP.t).

(** C4: EQUALITY maps the end-of-interval state of the pre node with
    [to_second] and the state of the post node with [to_first]; when the two
    mapped vectors have the same shape it returns their difference, which has
    that shape and is taken entry by entry; when the shapes differ it raises a
    RuntimeError whose message ends by suggesting a custom transition or a
    states_mapping. *)
Theorem equality_residual mp ocp pre post :
  let states_pre :=
    Mapping.map (BiMapping.to_second (MultinodePenalty.states_mapping mp))
      (OptimizationVariableList.cx_end (NLP.states pre)) in
  let states_post :=
    Mapping.map (BiMapping.to_first (MultinodePenalty.states_mapping mp))
      (OptimizationVariableList.cx (NLP.states post)) in
  (mx_shape states_pre = mx_shape states_post →
     MultinodePenaltyFunctions.equality mp (node_pair ocp pre post)
     = Ok (mx_minus states_pre states_post) ∧
     mx_shape (mx_minus states_pre states_post) = mx_shape states_pre ∧
     mx_entries (mx_minus states_pre states_post)
     = zip_with scalar_minus (mx_entries states_pre) (mx_entries states_post)) ∧
  (mx_shape states_pre ≠ mx_shape states_post →
     ∃ prefix,
       MultinodePenaltyFunctions.equality mp (node_pair ocp pre post)
       = Raise (RuntimeError
           (prefix +:+ "Please use a custom transition or supply states_mapping"))).
Proof.
  intros states_pre states_post. split.
  - intros Hs. split; [by apply equality_same_shape|].
    by apply mx_minus_same_shape.
  - intros Hs.
    destruct (mismatch_message_suggests (mx_shape states_pre) (mx_shape states_post))
      as [prefix E].
    exists prefix. rewrite <- E. by apply equality_mismatch.
Qed.

(** C8: COM_VELOCITY_EQUALITY returns the function of CoMdot(pre) - CoMdot(post)
    called with the end-of-interval state of the pre node and the
    start-of-interval state of the post node; the start-of-interval state of
    the pre node and the end-of-interval state of the post node play no part. *)
Theorem com_velocity_equality_states mp ocp pre post :
  let states_pre :=
    Mapping.map (BiMapping.to_second (MultinodePenalty.states_mapping mp))
      (OptimizationVariableList.cx_end (NLP.states pre)) in
  let states_post :=
    Mapping.map (BiMapping.to_first (MultinodePenalty.states_mapping mp))
      (OptimizationVariableList.cx (NLP.states post)) in
  (∀ q qdot syms sym0 sym1,
     mx_shape states_pre = mx_shape states_post →
     OptimizationVariableList.getitem (NLP.states pre) "q" = Ok q →
     OptimizationVariableList.getitem (NLP.states pre) "qdot" = Ok qdot →
     MultinodePenaltyFunctions.states_sym_list (NLP.states post) = Ok syms →
     syms !! 0%nat = Some sym0 →
     syms !! 1%nat = Some sym1 →
     MultinodePenaltyFunctions.com_velocity_equality mp (node_pair ocp pre post)
     = Ok (to_casadi_func "com_dot_equality"
             (mx_minus
                (BiorbdModel.CoMdot (NLP.model pre)
                   (mx_getitem_rows states_pre (OptimizationVariable.index q))
                   (mx_getitem_rows states_pre (OptimizationVariable.index qdot)))
                (BiorbdModel.CoMdot (NLP.model post) sym0 sym1))
             [states_pre; vertcat syms]
             [OptimizationVariableList.cx_end (NLP.states pre);
              OptimizationVariableList.cx (NLP.states post)])) ∧
  (∀ x y : MX,
     MultinodePenaltyFunctions.com_velocity_equality mp
       (node_pair ocp (with_cx x pre) (with_cx_end y post))
     = MultinodePenaltyFunctions.com_velocity_equality mp (node_pair ocp pre post)).
Proof.
  intros states_pre states_post. split.
  - intros q qdot syms sym0 sym1. apply com_velocity_equality_result.
  - apply com_velocity_equality_ignores_other_states.
Qed.

(** C10: COM_EQUALITY builds its mapped pre state from the end-of-interval
    state of the pre node, but calls the function of CoM(pre) - CoM(post) with
    the start-of-interval state of the pre node; EQUALITY and
    COM_VELOCITY_EQUALITY do not read the start-of-interval state of the pre
    node at all. *)
Theorem com_equality_states mp ocp pre post :
  let states_pre :=
    Mapping.map (BiMapping.to_second (MultinodePenalty.states_mapping mp))
      (OptimizationVariableList.cx_end (NLP.states pre)) in
  let states_post :=
    Mapping.map (BiMapping.to_first (MultinodePenalty.states_mapping mp))
      (OptimizationVariableList.cx (NLP.states post)) in
  (∀ q syms sym0,
     mx_shape states_pre = mx_shape states_post →
     OptimizationVariableList.getitem (NLP.states pre) "q" = Ok q →
     MultinodePenaltyFunctions.states_sym_list (NLP.states post) = Ok syms →
     syms !! 0%nat = Some sym0 →
     MultinodePenaltyFunctions.com_equality mp (node_pair ocp pre post)
     = Ok (to_casadi_func "com_equality"
             (mx_minus
                (BiorbdModel.CoM (NLP.model pre)
                   (mx_getitem_rows states_pre (OptimizationVariable.index q)))
                (BiorbdModel.CoM (NLP.model post) sym0))
             [states_pre; vertcat syms]
             [OptimizationVariableList.cx (NLP.states pre);
              OptimizationVariableList.cx (NLP.states post)])) ∧
  (∀ x : MX,
     MultinodePenaltyFunctions.equality mp (node_pair ocp (with_cx x pre) post)
     = MultinodePenaltyFunctions.equality mp (node_pair ocp pre post) ∧
     MultinodePenaltyFunctions.com_velocity_equality mp
       (node_pair ocp (with_cx x pre) post)
     = MultinodePenaltyFunctions.com_velocity_equality mp (node_pair ocp pre post)).
Proof.
  intros states_pre states_post. split.
  - intros q syms sym0. apply com_equality_result.
  - intros x. split; reflexivity.
Qed.

End StrategyProperties.

(** The strategies on two phases with two states each, the identity mapping
    and the model [sample_model]. *)

Lemma equality_residual_witness :
  MultinodePenaltyFunctions.equality (sample_entry 1 (NumInt 0) 0)
    (node_pair sample_ocp
       (sample_nlp (d_sym "a" 2 1) (d_sym "a_end" 2 1))
       (sample_nlp (d_sym "b" 2 1) (d_sym "b_end" 2 1)))
  = Ok {| d_shape := (2%nat, 1%nat);
          d_entries := [TMinus (TSym "a_end" 0) (TSym "b" 0);
                        TMinus (TSym "a_end" 1) (TSym "b" 1)] |} ∧
  ∃ prefix,
    MultinodePenaltyFunctions.equality (sample_entry 1 (NumInt 0) 0)
      (node_pair sample_ocp
         (sample_nlp (d_sym "a" 2 1) (d_sym "a_end" 3 1))
         (sample_nlp (d_sym "b" 2 1) (d_sym "b_end" 2 1)))
    = Raise (RuntimeError
        (prefix +:+ "Please use a custom transition or supply states_mapping")).
Proof.
  split.
  - destruct (equality_residual (sample_entry 1 (NumInt 0) 0) sample_ocp
                (sample_nlp (d_sym "a" 2 1) (d_sym "a_end" 2 1))
                (sample_nlp (d_sym "b" 2 1) (d_sym "b_end" 2 1))) as [H _].
    destruct H as [H _]; [reflexivity|]. rewrite H. reflexivity.
  - apply (equality_residual (sample_entry 1 (NumInt 0) 0) sample_ocp
             (sample_nlp (d_sym "a" 2 1) (d_sym "a_end" 3 1))
             (sample_nlp (d_sym "b" 2 1) (d_sym "b_end" 2 1))).
    simpl. intros [=].
Defined.

Lemma com_velocity_equality_states_witness :
  MultinodePenaltyFunctions.com_velocity_equality (sample_entry 1 (NumInt 0) 0)
    (node_pair sample_ocp
       (sample_nlp (d_sym "a" 2 1) (d_sym "a_end" 2 1))
       (sample_nlp (d_sym "b" 2 1) (d_sym "b_end" 2 1)))
  = Ok {| d_shape := (3%nat, 1%nat);
          d_entries :=
            (λ k, TApp "com_dot_equality" k
                    [TSym "a_end" 0; TSym "a_end" 1; TSym "b" 0; TSym "b" 1])
              <$> [0; 1; 2]%nat |}.
Proof.
  destruct (com_velocity_equality_states (sample_entry 1 (NumInt 0) 0) sample_ocp
              (sample_nlp (d_sym "a" 2 1) (d_sym "a_end" 2 1))
              (sample_nlp (d_sym "b" 2 1) (d_sym "b_end" 2 1))) as [H _].
  rewrite (H {| OptimizationVariable.index := [0%nat];
                OptimizationVariable.mx := d_sym "q" 1 1 |}
             {| OptimizationVariable.index := [1%nat];
                OptimizationVariable.mx := d_sym "qdot" 1 1 |}
             [d_sym "q" 1 1; d_sym "qdot" 1 1]
             (d_sym "q" 1 1) (d_sym "qdot" 1 1));
    reflexivity.
Defined.

Lemma com_equality_states_witness :
  MultinodePenaltyFunctions.com_equality (sample_entry 1 (NumInt 0) 0)
    (node_pair sample_ocp
       (sample_nlp (d_sym "a" 2 1) (d_sym "a_end" 2 1))
       (sample_nlp (d_sym "b" 2 1) (d_sym "b_end" 2 1)))
  = Ok {| d_shape := (3%nat, 1%nat);
          d_entries :=
            (λ k, TApp "com_equality" k
                    [TSym "a" 0; TSym "a" 1; TSym "b" 0; TSym "b" 1])
              <$> [0; 1; 2]%nat |}.
Proof.
  destruct (com_equality_states (sample_entry 1 (NumInt 0) 0) sample_ocp
              (sample_nlp (d_sym "a" 2 1) (d_sym "a_end" 2 1))
              (sample_nlp (d_sym "b" 2 1) (d_sym "b_end" 2 1))) as [H _].
  rewrite (H {| OptimizationVariable.index := [0%nat];
                OptimizationVariable.mx := d_sym "q" 1 1 |}
             [d_sym "q" 1 1; d_sym "qdot" 1 1]
             (d_sym "q" 1 1));
    reflexivity.
Defined.

(** On these phases COM_EQUALITY does read the start-of-interval state of the
    pre node: another one gives another residual. *)
Example com_equality_reads_start_state :
  MultinodePenaltyFunctions.com_equality (sample_entry 1 (NumInt 0) 0)
    (node_pair sample_ocp
       (with_cx (d_sym "c" 2 1) (sample_nlp (d_sym "a" 2 1) (d_sym "a_end" 2 1)))
       (sample_nlp (d_sym "b" 2 1) (d_sym "b_end" 2 1)))
  ≠ MultinodePenaltyFunctions.com_equality (sample_entry 1 (NumInt 0) 0)
      (node_pair sample_ocp
         (sample_nlp (d_sym "a" 2 1) (d_sym "a_end" 2 1))
         (sample_nlp (d_sym "b" 2 1) (d_sym "b_end" 2 1))).
Proof. intros [=]. Qed.

(** The example of two phases with four states each and the identity mapping:
    equal states give the entries [1 - 1], [2 - 2], [3 - 3], [4 - 4]. *)
Example equality_four_states :
  MultinodePenaltyFunctions.equality (sample_entry 1 (NumInt 0) 0)
    (node_pair sample_ocp
       (sample_nlp (d_column [0; 0; 0; 0]) (d_column [1; 2; 3; 4]))
       (sample_nlp (d_column [1; 2; 3; 4]) (d_column [0; 0; 0; 0])))
  = Ok {| d_shape := (4%nat, 1%nat);
          d_entries := (λ z, TMinus (TNum z) (TNum z)) <$> [1; 2; 3; 4] |}.
Proof. reflexivity. Qed.

(** * Further properties of the pools *)

(** ** Slots and indices *)

Lemma reserve_slot_index_lt (k : Z) (g : list slot) :
  (Z.to_nat (reserve_slot k g).1 < length (reserve_slot k g).2)%nat.
Proof. eapply lookup_lt_Some, reserve_slot_empty. Qed.

Lemma py_setitem_in_range (g : list slot) (i : Z) (x : slot) :
  0 <= i < Z.of_nat (length g) → py_setitem g i x = Ok (<[Z.to_nat i := x]> g).
Proof. intros H. unfold py_setitem. by rewrite bool_decide_eq_true_2. Qed.

Lemma py_setitem_reserved (k : Z) (g : list slot) (x : slot) :
  py_setitem (reserve_slot k g).2 (reserve_slot k g).1 x
  = Ok (<[Z.to_nat (reserve_slot k g).1 := x]> (reserve_slot k g).2).
Proof.
  apply py_setitem_in_range.
  pose proof (reserve_slot_index_nonneg k g).
  pose proof (reserve_slot_index_lt k g). lia.
Qed.

Lemma first_free_before (i j : Z) (g : list slot) (m : nat) :
  first_free i g = Some j → (m < Z.to_nat (j - i))%nat →
  ∃ id, g !! m = Some (SPenalty id).
Proof.
  revert i m. induction g as [|s g IH]; intros i m; simpl; [done|].
  destruct s as [|id]; simpl.
  - intros [= <-]. lia.
  - intros H Hm. destruct m as [|m]; [by exists id|]. simpl.
    apply (IH (i + 1)); [done|]. apply first_free_Some in H. lia.
Qed.

Lemma first_free_None_lookup (i : Z) (g : list slot) (m : nat) (s : slot) :
  first_free i g = None → g !! m = Some s → ∃ id, s = SPenalty id.
Proof.
  intros H Hm. apply first_free_None in H.
  eapply Forall_lookup_1 in H; [|done]. destruct s; [done|eauto].
Qed.

Lemma first_free_snoc (i : Z) (g : list slot) :
  first_free i g = None →
  first_free i (g ++ [SEmpty]) = Some (i + Z.of_nat (length g)).
Proof.
  revert i. induction g as [|s g IH]; intros i; simpl.
  - intros _. f_equal. lia.
  - destruct s; simpl; [done|]. intros H. rewrite IH by done. f_equal. lia.
Qed.

Lemma first_free_insert_penalty (i j : Z) (g : list slot) (id : nat) (k : nat) :
  first_free i (<[k := SPenalty id]> g) = Some j → Z.to_nat (j - i) ≠ k.
Proof.
  intros H0. apply first_free_Some in H0 as [Hj H]. intros <-.
  apply lookup_lt_Some in H as Hlt. rewrite length_insert in Hlt.
  by rewrite list_lookup_insert_eq in H.
Qed.

(** The slots other than the claimed one are as they were. *)
Lemma reserve_slot_frame (k : Z) (g : list slot) (i : nat) (s : slot) :
  i ≠ Z.to_nat (reserve_slot k g).1 → g !! i = Some s →
  (reserve_slot k g).2 !! i = Some s.
Proof.
  unfold reserve_slot. case_bool_decide; simpl.
  - destruct (first_free 0 g); simpl; [done|].
    intros _ Hs. rewrite lookup_app_l; [done|]. by eapply lookup_lt_Some.
  - intros Hi Hs. rewrite list_lookup_insert_ne by done.
    rewrite lookup_app_l; [done|]. by eapply lookup_lt_Some.
Qed.

(** With a negative index the claimed slot is the first empty one, or a new
    last one when every slot is taken. *)
Lemma reserve_slot_first_free (k : Z) (g : list slot) :
  k < 0 →
  (∀ m, (m < Z.to_nat (reserve_slot k g).1)%nat → ∃ id, g !! m = Some (SPenalty id)) ∧
  ((g !! Z.to_nat (reserve_slot k g).1 = Some SEmpty ∧ (reserve_slot k g).2 = g) ∨
   ((reserve_slot k g).1 = Z.of_nat (length g) ∧
    (reserve_slot k g).2 = g ++ [SEmpty])).
Proof.
  intros Hk. unfold reserve_slot. rewrite bool_decide_eq_true_2 by done.
  destruct (first_free 0 g) as [j|] eqn:E; simpl.
  - split.
    + intros m Hm. eapply first_free_before; [done|]. by rewrite Z.sub_0_r.
    + left. apply first_free_Some in E as [_ E]. by rewrite Z.sub_0_r in E.
  - split; [|by right].
    intros m Hm. rewrite Nat2Z.id in Hm.
    destruct (lookup_lt_is_Some_2 g m Hm) as [s Hs].
    destruct (first_free_None_lookup 0 g m s E Hs) as [id ->]. eauto.
Qed.

(** Reserving again, with a negative index, in the pool a reservation left:
    the same slot is claimed and the pool stays. *)
Lemma reserve_slot_shared (k1 k2 : Z) (g : list slot) :
  k1 < 0 → k2 < 0 →
  reserve_slot k2 (reserve_slot k1 g).2 = reserve_slot k1 g.
Proof.
  intros H1 H2. unfold reserve_slot.
  rewrite !bool_decide_eq_true_2 by done.
  destruct (first_free 0 g) as [j|] eqn:E; simpl.
  - by rewrite E.
  - rewrite first_free_snoc by done. by rewrite Z.add_0_l.
Qed.

(** Reserving, with a negative index, after a penalty was put in slot [k]:
    another slot is claimed and slot [k] keeps its penalty. *)
Lemma reserve_slot_after_install (k2 : Z) (g : list slot) (k : nat) (id : nat) :
  k2 < 0 → (k < length g)%nat →
  Z.to_nat (reserve_slot k2 (<[k := SPenalty id]> g)).1 ≠ k ∧
  (reserve_slot k2 (<[k := SPenalty id]> g)).2 !! k = Some (SPenalty id).
Proof.
  intros H2 Hk.
  assert (Z.to_nat (reserve_slot k2 (<[k := SPenalty id]> g)).1 ≠ k) as Hne.
  { unfold reserve_slot. rewrite bool_decide_eq_true_2 by done.
    destruct (first_free 0 _) as [j|] eqn:E; simpl.
    - apply first_free_insert_penalty in E. by rewrite Z.sub_0_r in E.
    - rewrite length_insert. lia. }
  split; [done|].
  apply reserve_slot_frame; [done|]. by apply list_lookup_insert_eq.
Qed.

Lemma reserve_slot_after_own_install (k : Z) (g : list slot) (x : slot) :
  reserve_slot (reserve_slot k g).1
    (<[Z.to_nat (reserve_slot k g).1 := x]> (reserve_slot k g).2)
  = reserve_slot k g.
Proof.
  pose proof (reserve_slot_index_nonneg k g) as Hk.
  pose proof (reserve_slot_index_lt k g) as Hlt.
  pose proof (reserve_slot_empty k g) as Hs.
  destruct (reserve_slot k g) as [i g'] eqn:E. simpl in *.
  unfold reserve_slot. rewrite bool_decide_eq_false_2 by lia.
  f_equal. rewrite length_insert.
  replace (Z.to_nat i + 1 - length g')%nat with 0%nat by lia.
  simpl. rewrite app_nil_r, list_insert_insert_eq. by apply list_insert_id.
Qed.

(** ** Reserving and installing *)

Section PoolCycle.
Context {MX : Type}.
Implicit Types (self : MultinodePenalty.t MX) (ocp : OCP.t) (nlp : option (NLP.t MX))
  (pn : PenaltyNodeList.t MX) (rest : list (PenaltyNodeList.t MX)).

Lemma penalty_install_eq self pn rest :
  MultinodePenalty._add_penalty_to_pool self (pn :: rest) =
  pool ← py_setitem (pn_pool (routed_pool self) pn)
            (MultinodePenalty.list_index self)
            (SPenalty (MultinodePenalty.obj_id self));
  Ok (as_pn (store_pool (routed_pool self) pool
               (PenaltyNodeList.ocp pn) (PenaltyNodeList.nlp pn)) :: rest).
Proof.
  unfold MultinodePenalty._add_penalty_to_pool, pn_pool, routed_pool, as_pn. simpl.
  destruct (py_setitem _ _ _) as [pool|e]; simpl; [|done].
  by destruct (store_pool _ _ _ _).
Qed.

Lemma objective_install_eq self pn rest :
  MultinodeObjective._add_penalty_to_pool self (pn :: rest) =
  pool ← py_setitem (pn_pool J_internal pn)
            (MultinodePenalty.list_index self)
            (SPenalty (MultinodePenalty.obj_id self));
  Ok (as_pn (store_pool J_internal pool
               (PenaltyNodeList.ocp pn) (PenaltyNodeList.nlp pn)) :: rest).
Proof.
  unfold MultinodeObjective._add_penalty_to_pool, pn_pool, as_pn. simpl.
  destruct (py_setitem _ _ _) as [pool|e]; simpl; [|done].
  by destruct (store_pool _ _ _ _).
Qed.

Lemma set_list_index_twice (i j : Z) self :
  MultinodePenalty.set_list_index i (MultinodePenalty.set_list_index j self)
  = MultinodePenalty.set_list_index i self.
Proof. reflexivity. Qed.

(** X1: a MultinodePenalty that was just reserved can always be installed:
    [_add_penalty_to_pool] succeeds, puts the penalty in the claimed slot of
    the selected pool, keeps the length of that pool and leaves the other pool
    as it was before the reservation. *)
Theorem reserve_then_install self ocp nlp rest :
  let X := routed_pool self in
  let after := MultinodePenalty.clear_penalty self ocp nlp in
  let k := Z.to_nat (MultinodePenalty.list_index after.1) in
  ∃ pn0',
    MultinodePenalty._add_penalty_to_pool after.1 (as_pn after.2 :: rest)
    = Ok (pn0' :: rest) ∧
    pn_pool X pn0'
    = <[k := SPenalty (MultinodePenalty.obj_id self)]> (pool_of X after.2.1 after.2.2) ∧
    pn_pool X pn0' !! k = Some (SPenalty (MultinodePenalty.obj_id self)) ∧
    length (pn_pool X pn0') = length (pool_of X after.2.1 after.2.2) ∧
    pn_pool (other_pool X) pn0' = pool_of (other_pool X) ocp nlp.
Proof.
  intros X after k. subst after k.
  rewrite penalty_clear_penalty_reserve. simpl. fold X.
  rewrite penalty_install_eq.
  change (routed_pool (MultinodePenalty.set_list_index _ self)) with X.
  unfold pn_pool, as_pn. simpl. rewrite pool_of_store.
  rewrite py_setitem_reserved. simpl.
  eexists. split; [reflexivity|]. simpl.
  rewrite store_pool_store, pool_of_store, pool_of_store_other.
  split_and!; [done| |by rewrite length_insert|done].
  apply list_lookup_insert_eq, reserve_slot_index_lt.
Qed.

(** X2: clearing a MultinodePenalty that was reserved and installed brings
    the penalty, the problem and the phase back to what they were right after
    the reservation: the index is kept and only its own slot is emptied. *)
Theorem install_then_clear self ocp nlp rest :
  let after := MultinodePenalty.clear_penalty self ocp nlp in
  ∃ pn0',
    MultinodePenalty._add_penalty_to_pool after.1 (as_pn after.2 :: rest)
    = Ok (pn0' :: rest) ∧
    MultinodePenalty.clear_penalty after.1
      (PenaltyNodeList.ocp pn0') (PenaltyNodeList.nlp pn0')
    = after.
Proof.
  intros after. subst after.
  rewrite penalty_clear_penalty_reserve. simpl.
  set (X := routed_pool self).
  rewrite penalty_install_eq.
  change (routed_pool (MultinodePenalty.set_list_index _ self)) with X.
  unfold pn_pool, as_pn. simpl. rewrite pool_of_store.
  rewrite py_setitem_reserved. simpl.
  eexists. split; [reflexivity|]. simpl.
  rewrite penalty_clear_penalty_reserve. simpl.
  change (routed_pool (MultinodePenalty.set_list_index _ self)) with X.
  rewrite !store_pool_store, pool_of_store, set_list_index_twice.
  by rewrite reserve_slot_after_own_install.
Qed.

(** X3: [clear_penalty] changes no slot but the one it claims: every slot of
    the selected pool at another index holds after the call what it held
    before. *)
Theorem clear_penalty_keeps_other_slots self ocp nlp (i : nat) (s : slot) :
  let X := routed_pool self in
  let after := MultinodePenalty.clear_penalty self ocp nlp in
  i ≠ Z.to_nat (MultinodePenalty.list_index after.1) →
  pool_of X ocp nlp !! i = Some s →
  pool_of X after.2.1 after.2.2 !! i = Some s.
Proof.
  intros X after. subst after.
  rewrite penalty_clear_penalty_reserve. simpl. fold X.
  rewrite pool_of_store. apply reserve_slot_frame.
Qed.

(** X4: with a negative [list_index], [clear_penalty] claims the first empty
    slot of the selected pool: every slot before the claimed one holds a
    penalty, and either the claimed slot was already there and empty and
    nothing changes but the index, or no slot was empty and one empty slot is
    appended and claimed. *)
Theorem clear_penalty_first_free self ocp nlp :
  let X := routed_pool self in
  let g := pool_of X ocp nlp in
  let after := MultinodePenalty.clear_penalty self ocp nlp in
  let k := Z.to_nat (MultinodePenalty.list_index after.1) in
  MultinodePenalty.list_index self < 0 →
  (∀ m, (m < k)%nat → ∃ id, g !! m = Some (SPenalty id)) ∧
  ((g !! k = Some SEmpty ∧ after.2 = (ocp, nlp)) ∨
   (k = length g ∧ pool_of X after.2.1 after.2.2 = g ++ [SEmpty] ∧
    Forall (λ s, slot_truthy s = true) g)).
Proof.
  intros X g after k Hk. subst after k.
  rewrite penalty_clear_penalty_reserve. simpl. fold X. fold g.
  rewrite pool_of_store.
  destruct (reserve_slot_first_free (MultinodePenalty.list_index self) g Hk)
    as [Hbefore Hcase].
  split; [done|].
  destruct Hcase as [[Hs Hg]|[Hi Hg]].
  - left. split; [done|]. rewrite Hg. apply store_pool_same.
  - right. rewrite Hi, Nat2Z.id. split_and!; [done|done|].
    apply Forall_lookup_2. intros m s Hm.
    destruct (Hbefore m) as [id Hid].
    { apply lookup_lt_Some in Hm. rewrite Hi. lia. }
    rewrite Hm in Hid. by injection Hid as ->.
Qed.

(** X5: reservation alone does not protect a slot.  Two MultinodePenalty with
    a negative [list_index] and the same selected pool, reserved one after the
    other with no installation in between, claim the same slot, and the second
    reservation changes nothing in the problem and the phase. *)
Theorem consecutive_reservations_collide
    (p1 p2 : MultinodePenalty.t MX) ocp nlp :
  let a1 := MultinodePenalty.clear_penalty p1 ocp nlp in
  let a2 := MultinodePenalty.clear_penalty p2 a1.2.1 a1.2.2 in
  MultinodePenalty.list_index p1 < 0 →
  MultinodePenalty.list_index p2 < 0 →
  routed_pool p2 = routed_pool p1 →
  MultinodePenalty.list_index a2.1 = MultinodePenalty.list_index a1.1 ∧
  a2.2 = a1.2.
Proof.
  intros a1 a2 H1 H2 HX. subst a1 a2.
  rewrite !penalty_clear_penalty_reserve. simpl. rewrite HX.
  rewrite pool_of_store, store_pool_store.
  by rewrite reserve_slot_shared.
Qed.

(** X6: once a MultinodePenalty is reserved and installed, another one with a
    negative [list_index] and the same selected pool claims a different slot,
    and the slot of the first still holds the first. *)
Theorem reservation_after_install_is_fresh
    (p1 p2 : MultinodePenalty.t MX) ocp nlp rest :
  let X := routed_pool p1 in
  let a1 := MultinodePenalty.clear_penalty p1 ocp nlp in
  MultinodePenalty.list_index p2 < 0 →
  routed_pool p2 = routed_pool p1 →
  ∃ pn0',
    MultinodePenalty._add_penalty_to_pool a1.1 (as_pn a1.2 :: rest)
    = Ok (pn0' :: rest) ∧
    let a2 := MultinodePenalty.clear_penalty p2
                (PenaltyNodeList.ocp pn0') (PenaltyNodeList.nlp pn0') in
    MultinodePenalty.list_index a2.1 ≠ MultinodePenalty.list_index a1.1 ∧
    pool_of X a2.2.1 a2.2.2 !! Z.to_nat (MultinodePenalty.list_index a1.1)
    = Some (SPenalty (MultinodePenalty.obj_id p1)).
Proof.
  intros X a1 H2 HX. subst a1.
  rewrite penalty_clear_penalty_reserve. simpl. fold X.
  rewrite penalty_install_eq.
  change (routed_pool (MultinodePenalty.set_list_index _ p1)) with X.
  unfold pn_pool, as_pn. simpl. rewrite pool_of_store.
  rewrite py_setitem_reserved. simpl.
  eexists. split; [reflexivity|]. simpl.
  rewrite penalty_clear_penalty_reserve. simpl. rewrite HX. fold X.
  rewrite !store_pool_store, !pool_of_store.
  set (r := reserve_slot (MultinodePenalty.list_index p1) (pool_of X ocp nlp)).
  destruct (reserve_slot_after_install (MultinodePenalty.list_index p2) r.2
              (Z.to_nat r.1) (MultinodePenalty.obj_id p1) H2
              (reserve_slot_index_lt _ _)) as [Hne Hs].
  split; [|done].
  intros E. apply Hne. by rewrite E.
Qed.

End PoolCycle.

Section PoolInstall.
Context {MX : Type}.
Implicit Types (self : MultinodePenalty.t MX) (ocp : OCP.t) (nlp : option (NLP.t MX))
  (pn : PenaltyNodeList.t MX) (rest : list (PenaltyNodeList.t MX)).


(** X8: the cycle of a MultinodeObjective, whatever its weight: after
    [clear_penalty], [_add_penalty_to_pool] succeeds and puts the objective in
    the claimed slot of [J_internal], the constraint pool is as it was before
    the reservation, and a further [clear_penalty] brings everything back to
    the state right after the reservation. *)
Theorem objective_reserve_install_clear self ocp nlp rest :
  let after := MultinodeObjective.clear_penalty self ocp nlp in
  let k := Z.to_nat (MultinodePenalty.list_index after.1) in
  ∃ pn',
    MultinodeObjective._add_penalty_to_pool after.1 (as_pn after.2 :: rest)
    = Ok (pn' :: rest) ∧
    pn_pool J_internal pn' !! k = Some (SPenalty (MultinodePenalty.obj_id self)) ∧
    pn_pool g_internal pn' = pool_of g_internal ocp nlp ∧
    MultinodeObjective.clear_penalty after.1
      (PenaltyNodeList.ocp pn') (PenaltyNodeList.nlp pn')
    = after.
Proof.
  intros after k. subst after k.
  rewrite objective_clear_penalty_reserve. simpl.
  rewrite objective_install_eq.
  unfold pn_pool, as_pn. simpl. rewrite pool_of_store.
  rewrite py_setitem_reserved. simpl.
  eexists. split; [reflexivity|]. simpl.
  rewrite objective_clear_penalty_reserve. simpl.
  rewrite !store_pool_store, !pool_of_store, set_list_index_twice.
  rewrite reserve_slot_after_own_install.
  split_and!; [|apply (pool_of_store_other J_internal)|done].
  apply list_lookup_insert_eq, reserve_slot_index_lt.
Qed.

End PoolInstall.

Lemma clear_penalty_keeps_other_slots_witness :
  pool_of g_internal
    (MultinodePenalty.clear_penalty (sample_entry 1 (NumInt 0) (-1))
       {| OCP.n_phases := 2; OCP.g_internal := [SPenalty 7; SEmpty];
          OCP.J_internal := [] |} (None : option (NLP.t dense))).2.1
    (None : option (NLP.t dense)) !! 0%nat
  = Some (SPenalty 7).
Proof.
  apply (clear_penalty_keeps_other_slots (sample_entry 1 (NumInt 0) (-1))
           {| OCP.n_phases := 2; OCP.g_internal := [SPenalty 7; SEmpty];
              OCP.J_internal := [] |} None 0 (SPenalty 7)).
  - simpl. lia.
  - reflexivity.
Defined.

Lemma clear_penalty_first_free_witness :
  MultinodePenalty.list_index
    (MultinodePenalty.clear_penalty (sample_entry 1 (NumInt 0) (-1))
       {| OCP.n_phases := 2; OCP.g_internal := [SPenalty 7; SEmpty];
          OCP.J_internal := [] |} (None : option (NLP.t dense))).1 = 1 ∧
  ∃ id, [SPenalty 7; SEmpty] !! 0%nat = Some (SPenalty id).
Proof.
  split; [reflexivity|].
  destruct (clear_penalty_first_free (sample_entry 1 (NumInt 0) (-1))
              {| OCP.n_phases := 2; OCP.g_internal := [SPenalty 7; SEmpty];
                 OCP.J_internal := [] |} (None : option (NLP.t dense)))
    as [H _]; [simpl; lia|].
  apply (H 0%nat). simpl. lia.
Defined.

Lemma consecutive_reservations_collide_witness :
  MultinodePenalty.list_index
    (MultinodePenalty.clear_penalty (sample_entry 2 (NumInt 0) (-1))
       (MultinodePenalty.clear_penalty (sample_entry 1 (NumInt 0) (-1))
          sample_ocp (None : option (NLP.t dense))).2.1 None).1
  = MultinodePenalty.list_index
      (MultinodePenalty.clear_penalty (sample_entry 1 (NumInt 0) (-1))
         sample_ocp (None : option (NLP.t dense))).1.
Proof.
  apply (consecutive_reservations_collide
           (sample_entry 1 (NumInt 0) (-1)) (sample_entry 2 (NumInt 0) (-1))
           sample_ocp None).
  - simpl. lia.
  - simpl. lia.
  - reflexivity.
Defined.

Lemma reservation_after_install_is_fresh_witness :
  ∃ pn0',
    MultinodePenalty._add_penalty_to_pool
      (MultinodePenalty.clear_penalty (sample_entry 1 (NumInt 0) (-1))
         sample_ocp (None : option (NLP.t dense))).1
      [as_pn (MultinodePenalty.clear_penalty (sample_entry 1 (NumInt 0) (-1))
                sample_ocp (None : option (NLP.t dense))).2]
    = Ok [pn0'] ∧
    MultinodePenalty.list_index
      (MultinodePenalty.clear_penalty (sample_entry 2 (NumInt 0) (-1))
         (PenaltyNodeList.ocp pn0') (PenaltyNodeList.nlp pn0')).1
    ≠ 0.
Proof.
  destruct (reservation_after_install_is_fresh
              (sample_entry 1 (NumInt 0) (-1)) (sample_entry 2 (NumInt 0) (-1))
              sample_ocp (None : option (NLP.t dense)) [])
    as (pn0' & E & Hne & _).
  - simpl. lia.
  - reflexivity.
  - exists pn0'. split; [exact E|exact Hne].
Defined.

(** * Further properties of the validation pass *)

Section PrepareAgain.
Context {MX : Type}.
Implicit Types (mnc : MultinodePenalty.t MX) (self : MultinodePenaltyList.t MX).

Lemma tagged_idempotent mnc : tagged (tagged mnc) = tagged mnc.
Proof.
  unfold tagged. destruct (py_truthy (MultinodePenalty.weight mnc)) eqn:E; simpl.
  - by rewrite E.
  - by rewrite E.
Qed.

Lemma tagged_valid_phases (n : Z) mnc : valid_phases n (tagged mnc) ↔ valid_phases n mnc.
Proof. unfold tagged. by destruct (py_truthy _). Qed.

Lemma tagged_list_valid (n : Z) (l : list (MultinodePenalty.t MX)) :
  Forall (valid_phases n) l → Forall (valid_phases n) (tagged <$> l).
Proof.
  intros H. apply Forall_fmap. eapply Forall_impl; [done|].
  intros x Hx. by apply tagged_valid_phases.
Qed.

Lemma tagged_list_idempotent (l : list (MultinodePenalty.t MX)) :
  tagged <$> (tagged <$> l) = tagged <$> l.
Proof.
  rewrite <- list_fmap_compose. apply list_fmap_ext.
  intros _ x _. apply tagged_idempotent.
Qed.

(** The outcome of the pass, by cases on the first invalid entry. *)
Lemma prepare_outcome self (ocp : OCP.t) :
  let n := OCP.n_phases ocp in
  (Forall (valid_phases n) self ∧
   MultinodePenaltyList.prepare_multinode_penalties self ocp
   = (tagged <$> self, Ok (tagged <$> self))) ∨
  (∃ pre e post,
     self = pre ++ e :: post ∧ Forall (valid_phases n) pre ∧ ¬ valid_phases n e ∧
     MultinodePenaltyList.prepare_multinode_penalties self ocp
     = ((tagged <$> pre) ++ e :: post, Raise (phase_error n e))).
Proof.
  intros n. unfold MultinodePenaltyList.prepare_multinode_penalties.
  destruct (decide (Forall (valid_phases n) self)) as [H|H].
  - left. split; [done|]. by rewrite prepare_loop_valid.
  - right. apply first_invalid in H as (pre & e & post & -> & Hpre & He).
    exists pre, e, post. split_and!; try done.
    by rewrite prepare_loop_invalid.
Qed.

(** X9: running [prepare_multinode_penalties] again on the list the first
    run left gives the same list and the same outcome, be it the returned
    entries or the error. *)
Theorem prepare_again self (ocp : OCP.t) :
  let r := MultinodePenaltyList.prepare_multinode_penalties self ocp in
  MultinodePenaltyList.prepare_multinode_penalties r.1 ocp = r.
Proof.
  intros r. subst r.
  destruct (prepare_outcome self ocp) as [[H E]|(pre & e & post & -> & Hpre & He & E)];
    rewrite E; simpl; unfold MultinodePenaltyList.prepare_multinode_penalties.
  - rewrite prepare_loop_valid by by apply tagged_list_valid.
    simpl. by rewrite tagged_list_idempotent.
  - rewrite prepare_loop_invalid by (by apply tagged_list_valid || done).
    simpl. by rewrite tagged_list_idempotent.
Qed.

(** X10: [prepare_multinode_penalties] changes nothing in the entries but the
    base of those with a weight: the list keeps its length, and each entry is
    afterwards either what it was or, if its weight is not zero, what it was
    with [base] set to the Mayer function. *)
Theorem prepare_only_sets_base self (ocp : OCP.t) :
  let r := MultinodePenaltyList.prepare_multinode_penalties self ocp in
  length r.1 = length self ∧
  Forall2 (λ mnc mnc',
             mnc' = mnc ∨
             (py_truthy (MultinodePenalty.weight mnc) = true ∧
              mnc' = MultinodePenalty.set_base MayerFunction mnc))
          self r.1.
Proof.
  intros r. subst r.
  assert (∀ l : list (MultinodePenalty.t MX),
    Forall2 (λ mnc mnc',
               mnc' = mnc ∨
               (py_truthy (MultinodePenalty.weight mnc) = true ∧
                mnc' = MultinodePenalty.set_base MayerFunction mnc))
            l (tagged <$> l)) as Htag.
  { intros l. apply Forall2_fmap_r, Forall_Forall2_diag, Forall_forall.
    intros x _. unfold compose, tagged.
    destruct (py_truthy _); [by right|by left]. }
  destruct (prepare_outcome self ocp) as [[H E]|(pre & e & post & -> & Hpre & He & E)];
    rewrite E; simpl.
  - split; [by rewrite length_fmap|done].
  - split; [by rewrite !length_app, length_fmap|].
    apply Forall2_app; [done|].
    apply Forall_Forall2_diag, Forall_forall. auto.
Qed.

(** X11: with no phase at all ([n_phases <= 0]) every list with an entry is
    refused at its first entry, and no entry is changed. *)
Theorem prepare_without_phases self (ocp : OCP.t) mnc rest :
  OCP.n_phases ocp <= 0 →
  self = mnc :: rest →
  ∃ msg,
    MultinodePenaltyList.prepare_multinode_penalties self ocp
    = (self, Raise (RuntimeError msg)).
Proof.
  intros Hn ->.
  unfold MultinodePenaltyList.prepare_multinode_penalties.
  assert (¬ valid_phases (OCP.n_phases ocp) mnc) as Hbad
    by (unfold valid_phases; lia).
  pose proof (prepare_loop_invalid ocp [] [] mnc rest [] []
                (Forall_nil_2 _) Hbad) as E.
  change ([] ++ mnc :: rest) with (mnc :: rest) in E. rewrite E. simpl.
  unfold phase_error. case_bool_decide; eauto.
Qed.

(** X12: the test against [n_phases] comes first.  When the first invalid
    entry has one index that is negative and the other one not below
    [n_phases], the error is the one about an index higher than the number of
    phases, not the one about a negative index. *)
Theorem prepare_reports_too_high_first self (ocp : OCP.t) pre e post :
  let n := OCP.n_phases ocp in
  self = pre ++ e :: post →
  Forall (valid_phases n) pre →
  (MultinodePenalty.phase_first_idx e < 0 ∧ n <= MultinodePenalty.phase_second_idx e) ∨
  (MultinodePenalty.phase_second_idx e < 0 ∧ n <= MultinodePenalty.phase_first_idx e) →
  (MultinodePenaltyList.prepare_multinode_penalties self ocp).2
  = Raise (RuntimeError
      "Phase index of the multinode_penalty is higher than the number of phases").
Proof.
  intros n -> Hpre He.
  unfold MultinodePenaltyList.prepare_multinode_penalties.
  rewrite prepare_loop_invalid; [|done|unfold valid_phases; lia].
  simpl. unfold phase_error. fold n. by rewrite bool_decide_eq_true_2 by lia.
Qed.

End PrepareAgain.

Lemma prepare_without_phases_witness :
  ∃ msg,
    MultinodePenaltyList.prepare_multinode_penalties
      [sample_entry 1 (NumInt 2) 0]
      {| OCP.n_phases := 0; OCP.g_internal := []; OCP.J_internal := [] |}
    = ([sample_entry 1 (NumInt 2) 0], Raise (RuntimeError msg)).
Proof.
  apply (prepare_without_phases [sample_entry 1 (NumInt 2) 0]
           {| OCP.n_phases := 0; OCP.g_internal := []; OCP.J_internal := [] |}
           (sample_entry 1 (NumInt 2) 0) []).
  - simpl. lia.
  - reflexivity.
Defined.

Lemma prepare_reports_too_high_first_witness :
  (MultinodePenaltyList.prepare_multinode_penalties
     [sample_entry 1 (NumInt 2) 0;
      MultinodePenalty.set_list_index 0
        (initialised (sample_penalty 2) (-1) 2 (PyNode END) (PyNode START)
           (NumInt 0) (NumInt 0) (NumInt 0))]
     sample_ocp).2
  = Raise (RuntimeError
      "Phase index of the multinode_penalty is higher than the number of phases").
Proof.
  apply (prepare_reports_too_high_first _ sample_ocp
           [sample_entry 1 (NumInt 2) 0]
           (MultinodePenalty.set_list_index 0
              (initialised (sample_penalty 2) (-1) 2 (PyNode END) (PyNode START)
                 (NumInt 0) (NumInt 0) (NumInt 0)))
           []).
  - reflexivity.
  - repeat constructor; simpl; lia.
  - left. simpl. lia.
Defined.

(** * Further properties of the strategies *)

Section StrategyErrors.
Context {scalar MX : Type} `{!Casadi scalar MX}.
Implicit Types (mp : MultinodePenalty.t MX) (pre post : NLP.t MX) (ocp : OCP.t)
  (states : OptimizationVariableList.t MX).



Lemma lookup_key_NoDup (l : list (string * OptimizationVariable.t MX)) k v :
  NoDup l.*1 → (k, v) ∈ l → OptimizationVariableList.lookup_key k l = Ok v.
Proof.
  induction l as [|[k' v'] l IH]; simpl.
  - by intros _ ?%elem_of_nil.
  - intros [Hk' Hnd]%NoDup_cons [[= -> ->]|Hin]%elem_of_cons.
    + by rewrite bool_decide_eq_true_2.
    + rewrite bool_decide_eq_false_2; [by apply IH|].
      intros Heq. subst. apply Hk'. by apply (list_elem_of_fmap_2 fst _ (_, v)).
Qed.

Lemma mapM_result_fmap {A B C} (f : A → result B) (g : C → B) (h : C → A)
    (l : list C) :
  (∀ x, x ∈ l → f (h x) = Ok (g x)) → mapM f (h <$> l) = Ok (g <$> l).
Proof.
  induction l as [|x l IH]; intros H; [done|].
  rewrite !fmap_cons. cbn [mapM]. rewrite H by by left. simpl.
  rewrite IH; [done|]. intros y Hy. apply H. by right.
Qed.

(** X13: every strategy needs two node contexts: with fewer than two, the
    three equality strategies and the custom one raise IndexError, and the
    custom function is not called. *)
Theorem strategies_need_two_contexts {A : Type}
    (f : MultinodePenalty.t MX → option (NLP.t MX) → option (NLP.t MX) → A → result MX)
    mp (all_pn : list (PenaltyNodeList.t MX)) (x : A) :
  (length all_pn < 2)%nat →
  MultinodePenaltyFunctions.equality mp all_pn
  = Raise (IndexError "list index out of range") ∧
  MultinodePenaltyFunctions.com_equality mp all_pn
  = Raise (IndexError "list index out of range") ∧
  MultinodePenaltyFunctions.com_velocity_equality mp all_pn
  = Raise (IndexError "list index out of range") ∧
  custom f mp all_pn x = Raise (IndexError "list index out of range").
Proof.
  destruct all_pn as [|a [|b l]]; simpl; [done|done|lia].
Qed.

(** X14: the custom strategy hands the phases of the first two node contexts
    to the custom function as they are and returns what it returns; the three
    equality strategies read the states of both phases, and so raise
    AttributeError when one of the two contexts has no phase. *)
Theorem strategies_on_missing_phase {A : Type}
    (f : MultinodePenalty.t MX → option (NLP.t MX) → option (NLP.t MX) → A → result MX)
    mp (pn_pre pn_post : PenaltyNodeList.t MX) rest (x : A) :
  custom f mp (pn_pre :: pn_post :: rest) x
  = f mp (PenaltyNodeList.nlp pn_pre) (PenaltyNodeList.nlp pn_post) x ∧
  (PenaltyNodeList.nlp pn_pre = None ∨ PenaltyNodeList.nlp pn_post = None →
   ∃ msg,
     MultinodePenaltyFunctions.equality mp (pn_pre :: pn_post :: rest)
     = Raise (AttributeError msg) ∧
     MultinodePenaltyFunctions.com_equality mp (pn_pre :: pn_post :: rest)
     = Raise (AttributeError msg) ∧
     MultinodePenaltyFunctions.com_velocity_equality mp (pn_pre :: pn_post :: rest)
     = Raise (AttributeError msg)).
Proof.
  split; [reflexivity|].
  unfold MultinodePenaltyFunctions.equality, MultinodePenaltyFunctions.com_equality,
    MultinodePenaltyFunctions.com_velocity_equality. simpl.
  destruct (PenaltyNodeList.nlp pn_pre) as [pre|], (PenaltyNodeList.nlp pn_post) as [post|];
    simpl; intros [?|?]; try done; eauto.
Qed.

(** X15: the two centre-of-mass strategies check the shapes before they look
    at any state block: when the mapped shapes differ they raise the very
    error EQUALITY raises, whatever blocks the phases have. *)
Theorem com_strategies_report_mismatch_first mp ocp pre post :
  mx_shape (mapped_pre mp pre) ≠ mx_shape (mapped_post mp post) →
  MultinodePenaltyFunctions.equality mp (node_pair ocp pre post)
  = Raise (RuntimeError (MultinodePenaltyFunctions.mismatch_message
             (mx_shape (mapped_pre mp pre)) (mx_shape (mapped_post mp post)))) ∧
  MultinodePenaltyFunctions.com_equality mp (node_pair ocp pre post)
  = MultinodePenaltyFunctions.equality mp (node_pair ocp pre post) ∧
  MultinodePenaltyFunctions.com_velocity_equality mp (node_pair ocp pre post)
  = MultinodePenaltyFunctions.equality mp (node_pair ocp pre post).
Proof.
  intros Hs. rewrite equality_mismatch by done.
  destruct (states_sym_list_total (NLP.states post)) as (syms & E & _).
  unfold MultinodePenaltyFunctions.com_equality,
    MultinodePenaltyFunctions.com_velocity_equality. simpl.
  fold (mapped_pre mp pre). fold (mapped_post mp post).
  rewrite E. simpl. by rewrite bool_decide_eq_true_2.
Qed.


End StrategyErrors.

Section VelocityErrors.
Context {scalar MX : Type} `{!Casadi scalar MX}.
Implicit Types (mp : MultinodePenalty.t MX) (pre post : NLP.t MX) (ocp : OCP.t)
  (states : OptimizationVariableList.t MX).



(** X18: when the keys of a phase are distinct, the list of fresh symbols of
    its states has one symbol per block, in the order of the keys, named after
    the key and shaped like the block's own symbol. *)
Theorem states_sym_list_distinct_keys states :
  NoDup (OptimizationVariableList.keys states) →
  MultinodePenaltyFunctions.states_sym_list states
  = Ok ((λ kv, MX_sym kv.1 (mx_shape (OptimizationVariable.mx kv.2)).1
                           (mx_shape (OptimizationVariable.mx kv.2)).2)
          <$> OptimizationVariableList.elements states).
Proof.
  intros Hnd.
  unfold MultinodePenaltyFunctions.states_sym_list, OptimizationVariableList.keys,
    OptimizationVariableList.getitem.
  apply mapM_result_fmap. intros [k v] Hin. simpl.
  by rewrite (lookup_key_NoDup _ k v Hnd Hin).
Qed.

End VelocityErrors.

(** The errors of the strategies on the phases of [sample_nlp]. *)

Lemma strategies_need_two_contexts_witness :
  MultinodePenaltyFunctions.com_equality (sample_entry 1 (NumInt 0) 0)
    [sample_pn (sample_nlp (d_sym "a" 2 1) (d_sym "a_end" 2 1))]
  = Raise (IndexError "list index out of range").
Proof.
  apply (strategies_need_two_contexts (A := unit) (λ _ _ _ _, Ok (d_column []))
           (sample_entry 1 (NumInt 0) 0)
           [sample_pn (sample_nlp (d_sym "a" 2 1) (d_sym "a_end" 2 1))] ()).
  simpl. lia.
Defined.

Lemma strategies_on_missing_phase_witness :
  ∃ msg,
    MultinodePenaltyFunctions.equality (sample_entry 1 (NumInt 0) 0)
      [sample_pn (sample_nlp (d_sym "a" 2 1) (d_sym "a_end" 2 1));
       {| PenaltyNodeList.ocp := sample_ocp; PenaltyNodeList.nlp := None |}]
    = Raise (AttributeError msg).
Proof.
  destruct (strategies_on_missing_phase (A := unit) (λ _ _ _ _, Ok (d_column []))
              (sample_entry 1 (NumInt 0) 0)
              (sample_pn (sample_nlp (d_sym "a" 2 1) (d_sym "a_end" 2 1)))
              {| PenaltyNodeList.ocp := sample_ocp; PenaltyNodeList.nlp := None |}
              [] ()) as [_ H].
  destruct H as (msg & H & _); [by right|].
  exists msg. exact H.
Defined.

Lemma com_strategies_report_mismatch_first_witness :
  MultinodePenaltyFunctions.com_velocity_equality (sample_entry 1 (NumInt 0) 0)
    (node_pair sample_ocp
       (sample_nlp (d_sym "a" 2 1) (d_sym "a_end" 3 1))
       (sample_nlp (d_sym "b" 2 1) (d_sym "b_end" 2 1)))
  = MultinodePenaltyFunctions.equality (sample_entry 1 (NumInt 0) 0)
      (node_pair sample_ocp
         (sample_nlp (d_sym "a" 2 1) (d_sym "a_end" 3 1))
         (sample_nlp (d_sym "b" 2 1) (d_sym "b_end" 2 1))).
Proof.
  apply (com_strategies_report_mismatch_first (sample_entry 1 (NumInt 0) 0)
           sample_ocp
           (sample_nlp (d_sym "a" 2 1) (d_sym "a_end" 3 1))
           (sample_nlp (d_sym "b" 2 1) (d_sym "b_end" 2 1))).
  simpl. intros [=].
Defined.



Lemma states_sym_list_distinct_keys_witness :
  MultinodePenaltyFunctions.states_sym_list
    (NLP.states (sample_nlp (d_sym "a" 2 1) (d_sym "a_end" 2 1)))
  = Ok [d_sym "q" 1 1; d_sym "qdot" 1 1].
Proof.
  rewrite (states_sym_list_distinct_keys
             (NLP.states (sample_nlp (d_sym "a" 2 1) (d_sym "a_end" 2 1)))).
  - reflexivity.
  - simpl. apply NoDup_cons. split.
    + intros H. apply elem_of_cons in H as [H|H]; [discriminate H|].
      by apply elem_of_nil in H.
    + apply NoDup_cons. split; [apply not_elem_of_nil|apply NoDup_nil_2].
Defined.

(** * Further properties of construction *)

(** X19: the keyword [force_multinode] is never handed to the base
    initialiser and every other keyword is; its presence alone, whatever its
    value, keeps the strategy and the custom function as given; so does a
    strategy that is a member of the enumeration; any other strategy, when the
    keyword is absent, becomes the custom function, in place of the one given,
    with CUSTOM as the strategy. *)
Theorem super_arguments_cases (multinode_penalty custom_function : PyObject)
    (params : gmap string PyObject) :
  let r := super_arguments multinode_penalty custom_function params in
  r.2 = delete "force_multinode" params ∧
  (is_Some (params !! "force_multinode") →
   r.1 = (multinode_penalty, custom_function)) ∧
  (isinstance_fcn multinode_penalty = true →
   r.1 = (multinode_penalty, custom_function)) ∧
  (params !! "force_multinode" = None →
   isinstance_fcn multinode_penalty = false →
   r.1 = (ObjFcn CUSTOM, multinode_penalty)).
Proof.
  unfold super_arguments. simpl.
  case_bool_decide as Hf; simpl.
  - rewrite andb_false_r. split_and!; try done.
    intros E. rewrite E in Hf. by destruct Hf.
  - assert (params !! "force_multinode" = None) as Hnone.
    { destruct (params !! "force_multinode") eqn:E; [|done]. destruct Hf. eauto. }
    rewrite andb_true_r.
    destruct (isinstance_fcn multinode_penalty); simpl;
      split_and!; try done; by rewrite delete_id.
Qed.

(** X20: what [MultinodePenaltyList.add] hands to the constructor is always a
    member of the enumeration, so the constructor keeps it and the custom
    function as they are.  A strategy that is no member reaches the
    constructor as the keyword [custom_function], in place of any the caller
    gave, with the other keywords unchanged; a member is passed on with the
    keywords untouched. *)
Theorem add_arguments_not_wrapped_again (multinode_penalty custom_function : PyObject)
    (extra_arguments params : gmap string PyObject) :
  let a := add_arguments multinode_penalty extra_arguments in
  isinstance_fcn a.1 = true ∧
  (super_arguments a.1 custom_function params).1 = (a.1, custom_function) ∧
  (isinstance_fcn multinode_penalty = false →
   a.1 = ObjFcn CUSTOM ∧
   a.2 !! "custom_function" = Some multinode_penalty ∧
   ∀ key, key ≠ "custom_function" → a.2 !! key = extra_arguments !! key) ∧
  (isinstance_fcn multinode_penalty = true →
   a = (multinode_penalty, extra_arguments)).
Proof.
  intros a.
  assert (isinstance_fcn a.1 = true) as Ha.
  { subst a. unfold add_arguments.
    by destruct (isinstance_fcn multinode_penalty) eqn:E. }
  split_and!.
  - done.
  - unfold super_arguments. rewrite Ha. simpl. by case_bool_decide.
  - intros E. subst a. unfold add_arguments. rewrite E. simpl.
    split_and!; [done|apply lookup_insert_eq|].
    intros key Hkey. by apply lookup_insert_ne.
  - intros E. subst a. unfold add_arguments. by rewrite E.
Qed.

Section ConstructionAgain.
Context {MX : Type}.
Implicit Types (self mnc : MultinodePenalty.t MX) (l : MultinodePenaltyList.t MX).


(** X22: the two tests on the weight agree.  The validation pass tags an
    entry with the Mayer base exactly when the pool methods of MultinodePenalty
    select the objective pool for it; an entry they send to the constraint pool
    is left as it is. *)
Theorem mayer_base_iff_objective_pool mnc :
  (routed_pool mnc = J_internal ∧
   tagged mnc = MultinodePenalty.set_base MayerFunction mnc) ∨
  (routed_pool mnc = g_internal ∧ tagged mnc = mnc).
Proof.
  unfold routed_pool, tagged.
  destruct (MultinodePenalty.weight mnc) as [[| |]|[]]; simpl; auto.
Qed.

End ConstructionAgain.

Lemma super_arguments_cases_witness :
  (super_arguments (ObjCallable "f") (ObjValue PyNone)
     {[ "force_multinode" := ObjValue (PyBool false) ]}).1
  = (ObjCallable "f", ObjValue PyNone) ∧
  (super_arguments (ObjCallable "f") (ObjCallable "g") ∅).1
  = (ObjFcn CUSTOM, ObjCallable "f").
Proof.
  split.
  - destruct (super_arguments_cases (ObjCallable "f") (ObjValue PyNone)
                {[ "force_multinode" := ObjValue (PyBool false) ]})
      as (_ & H & _).
    apply H. by eexists.
  - destruct (super_arguments_cases (ObjCallable "f") (ObjCallable "g") ∅)
      as (_ & _ & _ & H).
    apply H; reflexivity.
Defined.

Lemma add_arguments_not_wrapped_again_witness :
  (add_arguments (ObjCallable "f") {[ "custom_function" := ObjCallable "g" ]}).2
    !! "custom_function"
  = Some (ObjCallable "f").
Proof.
  destruct (add_arguments_not_wrapped_again (ObjCallable "f") (ObjValue PyNone)
              {[ "custom_function" := ObjCallable "g" ]} ∅) as (_ & _ & H & _).
  destruct H as (_ & H & _); [reflexivity|]. exact H.
Defined.


Section PostSide.
Context {scalar MX : Type} `{!Casadi scalar MX}.
Implicit Types (mp : MultinodePenalty.t MX) (pre post : NLP.t MX) (ocp : OCP.t)
  (states : OptimizationVariableList.t MX).

Lemma states_sym_list_head states key0 v0 els :
  OptimizationVariableList.elements states = (key0, v0) :: els →
  ∃ syms,
    MultinodePenaltyFunctions.states_sym_list states
    = Ok (MX_sym key0 (mx_shape (OptimizationVariable.mx v0)).1
                      (mx_shape (OptimizationVariable.mx v0)).2 :: syms).
Proof.
  intros Hel.
  destruct (states_sym_list_total states) as (syms & E & _).
  revert E.
  unfold MultinodePenaltyFunctions.states_sym_list, OptimizationVariableList.keys,
    OptimizationVariableList.getitem.
  rewrite Hel, fmap_cons. cbn [mapM fst OptimizationVariableList.lookup_key].
  rewrite bool_decide_eq_true_2 by done. simpl.
  destruct (mapM _ _) as [k|e]; simpl; [|done].
  intros _. by exists k.
Qed.

(** X23: COM_EQUALITY picks the position block of the post phase by place,
    not by name: whatever the key of the first block of the post phase, the
    CoM of the post side is taken on the fresh symbol of that block, while the
    pre side takes the rows of the block named "q". *)
Theorem com_equality_post_side_by_position mp ocp pre post q key0 v0 els :
  OptimizationVariableList.elements (NLP.states post) = (key0, v0) :: els →
  mx_shape (mapped_pre mp pre) = mx_shape (mapped_post mp post) →
  OptimizationVariableList.getitem (NLP.states pre) "q" = Ok q →
  ∃ syms,
    MultinodePenaltyFunctions.com_equality mp (node_pair ocp pre post)
    = Ok (to_casadi_func "com_equality"
            (mx_minus
               (BiorbdModel.CoM (NLP.model pre)
                  (mx_getitem_rows (mapped_pre mp pre) (OptimizationVariable.index q)))
               (BiorbdModel.CoM (NLP.model post)
                  (MX_sym key0 (mx_shape (OptimizationVariable.mx v0)).1
                               (mx_shape (OptimizationVariable.mx v0)).2)))
            [mapped_pre mp pre;
             vertcat (MX_sym key0 (mx_shape (OptimizationVariable.mx v0)).1
                                  (mx_shape (OptimizationVariable.mx v0)).2 :: syms)]
            [OptimizationVariableList.cx (NLP.states pre);
             OptimizationVariableList.cx (NLP.states post)]).
Proof.
  intros Hel Hs Hq.
  destruct (states_sym_list_head (NLP.states post) key0 v0 els Hel) as [syms E].
  exists syms. by eapply com_equality_result.
Qed.

End PostSide.

Lemma com_equality_post_side_by_position_witness :
  ∃ syms,
    MultinodePenaltyFunctions.com_equality (sample_entry 1 (NumInt 0) 0)
      (node_pair sample_ocp
         (sample_nlp (d_sym "a" 2 1) (d_sym "a_end" 2 1))
         (sample_nlp (d_sym "b" 2 1) (d_sym "b_end" 2 1)))
    = Ok (d_call "com_equality"
            (d_minus
               (BiorbdModel.CoM sample_model
                  (d_getitem_rows (d_sym "a_end" 2 1) [0%nat]))
               (BiorbdModel.CoM sample_model (d_sym "q" 1 1)))
            [d_sym "a_end" 2 1; d_vertcat (d_sym "q" 1 1 :: syms)]
            [d_sym "a" 2 1; d_sym "b" 2 1]).
Proof.
  destruct (com_equality_post_side_by_position (sample_entry 1 (NumInt 0) 0)
              sample_ocp
              (sample_nlp (d_sym "a" 2 1) (d_sym "a_end" 2 1))
              (sample_nlp (d_sym "b" 2 1) (d_sym "b_end" 2 1))
              {| OptimizationVariable.index := [0%nat];
                 OptimizationVariable.mx := d_sym "q" 1 1 |}
              "q"
              {| OptimizationVariable.index := [0%nat];
                 OptimizationVariable.mx := d_sym "q" 1 1 |}
              [("qdot", {| OptimizationVariable.index := [1%nat];
                           OptimizationVariable.mx := d_sym "qdot" 1 1 |})])
    as [syms E]; [reflexivity|reflexivity|reflexivity|].
  exists syms. exact E.
Defined.
